(** * Verification of the weather-bot agent client

    A shallow embedding of [src/lib/agent/agentClient.ts]: the activity
    mapper, the tool executors and the agent loop of [AgentClient], with the
    properties the specification states about them.

    JavaScript strings are sequences of UTF-16 code units; they are modelled
    as lists of code units so that [trim], [startsWith], [replace], [split],
    [parseFloat] and the regular expression of the mapper keep the meaning
    they have in the language. *)

From Stdlib Require Import List NArith Arith Bool String Ascii Lia.
Import ListNotations.

Set Implicit Arguments.

(** ** JavaScript strings *)

Definition jsstring := list N.

(** An ASCII literal of the source as a code-unit sequence. *)
Definition lit (s : string) : jsstring :=
  List.map N_of_ascii (list_ascii_of_string s).

(** [a === b] on strings. *)
Fixpoint jsstring_eqb (a b : jsstring) : bool :=
  match a, b with
  | [], [] => true
  | x :: a', y :: b' => (x =? y)%N && jsstring_eqb a' b'
  | _, _ => false
  end.

(** WhiteSpace and LineTerminator code units: what [String.prototype.trim]
    strips, what [parseFloat] skips and what [\s] matches. *)
Definition isWhiteSpace (c : N) : bool :=
  existsb (N.eqb c)
    [9; 10; 11; 12; 13; 32; 160; 5760; 8232; 8233; 8239; 8287; 12288; 65279]%N
  || ((8192 <=? c) && (c <=? 8202))%N.

(** [\w] without the unicode and ignore-case flags: [A-Za-z0-9_]. *)
Definition isWordChar (c : N) : bool :=
  ((65 <=? c) && (c <=? 90) || (97 <=? c) && (c <=? 122)
   || (48 <=? c) && (c <=? 57) || (c =? 95))%N.

Definition isDigit (c : N) : bool := ((48 <=? c) && (c <=? 57))%N.

Fixpoint trimStart (s : jsstring) : jsstring :=
  match s with
  | c :: s' => if isWhiteSpace c then trimStart s' else s
  | [] => []
  end.

Definition trimEnd (s : jsstring) : jsstring := rev (trimStart (rev s)).

Definition trim (s : jsstring) : jsstring := trimEnd (trimStart s).

(** [s.startsWith(k)] *)
Fixpoint startsWith (k s : jsstring) : bool :=
  match k, s with
  | [], _ => true
  | a :: k', b :: s' => (a =? b)%N && startsWith k' s'
  | _ :: _, [] => false
  end.

(** [s.replace(k, "")] with a string pattern: the first occurrence of [k]
    is removed, the rest of [s] is kept. *)
Fixpoint replace_first (k s : jsstring) : jsstring :=
  if startsWith k s then skipn (List.length k) s
  else match s with
       | c :: s' => c :: replace_first k s'
       | [] => []
       end.

(** [s.replace(/c/g, "")] for a one-character pattern. *)
Definition remove_all (c : N) (s : jsstring) : jsstring :=
  filter (fun x => negb (x =? c)%N) s.

(** [s.split(sep)] for a one-character separator. *)
Fixpoint split (sep : N) (s : jsstring) : list jsstring :=
  match s with
  | [] => [[]]
  | c :: s' =>
      if (c =? sep)%N then [] :: split sep s'
      else match split sep s' with
           | h :: t => (c :: h) :: t
           | [] => [[c]]
           end
  end.

(** ** The regular expression of the mapper

    A backtracking matcher for the fragment the source uses: a sequence of
    one-character classes, each taken once, zero or more times or one or more
    times (greedy), some of them capturing. *)

Inductive quantifier := Once | ZeroOrMore | OneOrMore.

Record piece := mkPiece
  { accepts : N -> bool; rep : quantifier; capturing : bool }.

Section Matcher.
Variable R : Type.

(** Greedy repetition of a class with backtracking: the longest run is
    tried first, then shorter ones. [taken] is what the repetition has
    consumed so far. *)
Fixpoint greedy (p : N -> bool) (k : jsstring -> jsstring -> option R)
    (taken s : jsstring) : option R :=
  match s with
  | c :: s' =>
      if p c then
        match greedy p k (taken ++ [c]) s' with
        | Some r => Some r
        | None => k taken s
        end
      else k taken s
  | [] => k taken s
  end.
End Matcher.

Fixpoint matchHere (ps : list piece) (s : jsstring) (caps : list jsstring)
    : option (list jsstring) :=
  match ps with
  | [] => Some caps
  | p :: ps' =>
      let k := fun taken rest =>
        matchHere ps' rest (if capturing p then caps ++ [taken] else caps) in
      match rep p with
      | Once =>
          match s with
          | c :: s' => if accepts p c then k [c] s' else None
          | [] => None
          end
      | ZeroOrMore => greedy (accepts p) k [] s
      | OneOrMore =>
          match s with
          | c :: s' => if accepts p c then greedy (accepts p) k [c] s' else None
          | [] => None
          end
      end
  end.

(** [s.match(re)] for a pattern without the global flag: the leftmost match,
    as the list of its capture groups. *)
Fixpoint regexMatch (ps : list piece) (s : jsstring) : option (list jsstring) :=
  match matchHere ps s [] with
  | Some caps => Some caps
  | None =>
      match s with
      | [] => None
      | _ :: s' => regexMatch ps s'
      end
  end.

Definition exactly (c : N) : piece := mkPiece (N.eqb c) Once false.

(** [\s*(\w+)\(([^)]+)\)]: the call after the keyword. *)
Definition callPieces : list piece :=
  [ mkPiece isWhiteSpace ZeroOrMore false;
    mkPiece isWordChar OneOrMore true;
    exactly 40;
    mkPiece (fun c => negb (c =? 41)%N) OneOrMore true;
    exactly 41 ].

(** [/ACTION:\s*(\w+)\(([^)]+)\)/] *)
Definition actionPattern : list piece :=
  List.map exactly (lit "ACTION:") ++ callPieces.

(** ** Data model *)

(** What a [throw] can carry: an [Error] object with its message, or any
    other value (for which [error instanceof Error] is false). *)
Inductive thrown := JsError (message : jsstring) | NotAnError.

Inductive result (A : Type) := Return (a : A) | Throw (e : thrown).
Arguments Return {A} a.
Arguments Throw {A} e.

(** [L.AgentActivityType] of the tracker's SDK. *)
Inductive AgentActivityType :=
  Thought | Action | Response | Elicitation | Error | Prompt.

(** Modelled from the spec: [ToolName] of [src/lib/types.ts], absent from
    src/: the three registered tool names, the ones [executeAction]
    dispatches on. *)
Inductive ToolName := GetCoordinates | GetWeather | GetTime.

Definition toolNameString (t : ToolName) : jsstring :=
  match t with
  | GetCoordinates => lit "getCoordinates"
  | GetWeather => lit "getWeather"
  | GetTime => lit "getTime"
  end.

(** Modelled from the spec: [isToolName] of [src/lib/types.ts], absent from
    src/: true exactly of the three registered tool names. [parseToolName]
    also gives the name, as the cast [toolNameRaw as ToolName] does. *)
Definition parseToolName (s : jsstring) : option ToolName :=
  find (fun t => jsstring_eqb s (toolNameString t))
       [GetCoordinates; GetWeather; GetTime].

Definition isToolName (s : jsstring) : bool :=
  match parseToolName s with Some _ => true | None => false end.

(** [Content]: the five activity variants the agent writes. An absent
    [result] key and a [null] parameter are [None]. *)
Inductive Content :=
| ThoughtContent (body : jsstring)
| ActionContent (action : ToolName) (parameter result : option jsstring)
| ResponseContent (body : jsstring)
| ElicitationContent (body : jsstring)
| ErrorContent (body : jsstring).

Definition contentType (c : Content) : AgentActivityType :=
  match c with
  | ThoughtContent _ => Thought
  | ActionContent _ _ _ => Action
  | ResponseContent _ => Response
  | ElicitationContent _ => Elicitation
  | ErrorContent _ => Error
  end.

Definition contentBody (c : Content) : option jsstring :=
  match c with
  | ThoughtContent b | ResponseContent b | ElicitationContent b
  | ErrorContent b => Some b
  | ActionContent _ _ _ => None
  end.

(** [x || null] on a string: the empty string is falsy. *)
Definition orNull (x : jsstring) : option jsstring :=
  match x with [] => None | _ => Some x end.

(** [!parameter] on [string | null]. *)
Definition falsy (x : option jsstring) : bool :=
  match x with None | Some [] => true | Some _ => false end.

(** ** The activity mapper *)

Definition THINKING := lit "THINKING:".
Definition ACTION := lit "ACTION:".
Definition RESPONSE := lit "RESPONSE:".
Definition ELICITATION := lit "ELICITATION:".
Definition ERROR := lit "ERROR:".

(** [Object.entries(typeToKeyword)]: the entries in insertion order. *)
Definition typeToKeyword : list (AgentActivityType * jsstring) :=
  [ (Thought, THINKING); (Action, ACTION); (Response, RESPONSE);
    (Elicitation, ELICITATION); (Error, ERROR) ].

Definition mappedType (response : jsstring) : AgentActivityType :=
  match find (fun e => startsWith (snd e) response) typeToKeyword with
  | Some e => fst e
  | None => Thought
  end.

(** [response.replace(typeToKeyword[type], "").trim()] *)
Definition stripKeyword (keyword response : jsstring) : jsstring :=
  trim (replace_first keyword response).

Section Mapper.
(** [UnreachableCaseError] of [src/lib/types.ts] is absent from src/; the
    value it constructs is a parameter. *)
Variable UnreachableCaseError : AgentActivityType -> thrown.

Definition mapResponseToLinearActivityContent (response : jsstring)
    : result Content :=
  let type := mappedType response in
  match type with
  | Thought => Return (ThoughtContent (stripKeyword THINKING response))
  | Response => Return (ResponseContent (stripKeyword RESPONSE response))
  | Elicitation =>
      Return (ElicitationContent (stripKeyword ELICITATION response))
  | Error => Return (ErrorContent (stripKeyword ERROR response))
  | Action =>
      match regexMatch actionPattern response with
      | Some [toolNameRaw; params] =>
          match parseToolName toolNameRaw with
          | None => Throw (JsError (lit "Invalid tool name: " ++ toolNameRaw))
          | Some toolName =>
              Return (ActionContent toolName (orNull params) None)
          end
      | _ => Throw (UnreachableCaseError type)
      end
  | Prompt => Throw (UnreachableCaseError type)
  end.
End Mapper.

(** ** The tool executors *)

Definition isSign (c : N) : bool := ((c =? 43) || (c =? 45))%N.

Fixpoint takeWhile (p : N -> bool) (s : jsstring) : jsstring :=
  match s with
  | c :: s' => if p c then c :: takeWhile p s' else []
  | [] => []
  end.

Fixpoint dropWhile (p : N -> bool) (s : jsstring) : jsstring :=
  match s with
  | c :: s' => if p c then dropWhile p s' else s
  | [] => []
  end.

(** The exponent part [e] or [E], an optional sign and at least one digit,
    when [s] starts with one; the empty string otherwise. *)
Definition exponentPart (s : jsstring) : jsstring :=
  match s with
  | e :: s1 =>
      if ((e =? 101) || (e =? 69))%N then
        let sign := match s1 with
                    | c :: _ => if isSign c then [c] else []
                    | [] => []
                    end in
        let digits := takeWhile isDigit (skipn (List.length sign) s1) in
        match digits with
        | [] => []
        | _ => e :: sign ++ digits
        end
      else []
  | [] => []
  end.

(** The longest prefix of [s] that is an unsigned [StrDecimalLiteral]. *)
Definition unsignedDecimalPrefix (s : jsstring) : option jsstring :=
  if startsWith (lit "Infinity") s then Some (lit "Infinity")
  else
    let int := takeWhile isDigit s in
    let s1 := dropWhile isDigit s in
    match s1 with
    | 46%N :: s2 =>
        let frac := takeWhile isDigit s2 in
        match int, frac with
        | [], [] => None
        | _, _ =>
            Some (int ++ 46%N :: frac ++ exponentPart (dropWhile isDigit s2))
        end
    | _ =>
        match int with
        | [] => None
        | _ => Some (int ++ exponentPart s1)
        end
    end.

(** The longest prefix of [s] that is a [StrDecimalLiteral]: what
    [parseFloat] converts; [None] when there is none. *)
Definition decimalPrefix (s : jsstring) : option jsstring :=
  match s with
  | c :: s' =>
      if isSign c then option_map (cons c) (unsignedDecimalPrefix s')
      else unsignedDecimalPrefix s
  | [] => None
  end.

Definition messageOf (e : thrown) : jsstring :=
  match e with
  | JsError m => m
  | NotAnError => lit "Unknown error"
  end.

Definition bindResult {A B} (r : result A) (f : A -> result B) : result B :=
  match r with
  | Return a => f a
  | Throw e => Throw e
  end.

Section Tools.
(** Numbers other than NaN, and the numeric value of a decimal literal;
    NaN itself is [None] below. *)
Variable number : Type.
Variable StringToNumber : jsstring -> number.

(** The values the tool functions of [./tools] resolve to, with
    [JSON.stringify] on them. *)
Variable value : Type.
Variable JSON_stringify : value -> jsstring.

(** The tool functions of [./tools], absent from src/: each is one external
    HTTP call, which may answer differently at each iteration [tick] of
    the loop and may throw. *)
Variable getCoordinates : nat -> jsstring -> result value.
Variable getWeather : nat -> number -> number -> result value.
Variable getTime : nat -> number -> number -> result jsstring.

Definition parseFloat (s : jsstring) : option number :=
  option_map StringToNumber (decimalPrefix (trimStart s)).

Definition missingParameter : thrown :=
  JsError (lit "Parameter is required for action execution").
Definition invalidWeatherParameter : thrown :=
  JsError (lit "Invalid parameter for getWeather action").
Definition invalidTimeParameter : thrown :=
  JsError (lit "Invalid parameter for getTime action").

(** [parameter.split(",").map((p) => parseFloat(p.trim()))] *)
Definition parseParts (parameter : jsstring) : list (option number) :=
  List.map (fun p => parseFloat (trim p)) (split 44 parameter).

Definition executeAction (tick : nat) (action : ToolName)
    (parameter : option jsstring) : result jsstring :=
  if falsy parameter then Throw missingParameter
  else
    let parameter := match parameter with Some p => p | None => [] end in
    match action with
    | GetCoordinates =>
        bindResult (getCoordinates tick (remove_all 34 parameter))
          (fun v => Return (JSON_stringify v))
    | GetWeather =>
        match parseParts parameter with
        | Some lat :: Some long :: _ =>
            bindResult (getWeather tick lat long)
              (fun v => Return (JSON_stringify v))
        | _ => Throw invalidWeatherParameter
        end
    | GetTime =>
        match parseParts parameter with
        | Some lat :: Some long :: _ => getTime tick lat long
        | _ => Throw invalidTimeParameter
        end
    end.
End Tools.

(** ** Conversation history and the tracker's activity log *)

Inductive Role := system | user | assistant.

Record ChatMessage := mkMessage { role : Role; content : jsstring }.

(** An activity of the tracker's log: a prompt of the user, or one of the
    contents the agent wrote. *)
Inductive LoggedActivity :=
| PromptActivity (body : jsstring)
| AgentActivity (c : Content).

Definition loggedType (a : LoggedActivity) : AgentActivityType :=
  match a with
  | PromptActivity _ => Prompt
  | AgentActivity c => contentType c
  end.

Definition isPrompt (a : LoggedActivity) : bool :=
  match loggedType a with Prompt => true | _ => false end.

Definition isResponse (a : LoggedActivity) : bool :=
  match loggedType a with Response => true | _ => false end.

(** The body of a prompt or response; an action has none. *)
Definition loggedBody (a : LoggedActivity) : option jsstring :=
  match a with
  | PromptActivity b => Some b
  | AgentActivity c => contentBody c
  end.

(** One page of [agentSession.activities()]. *)
Record Connection := mkConnection
  { nodes : list LoggedActivity;
    hasNextPage : bool;
    endCursor : option jsstring }.

Section History.
(** [agentSession.activities({ after })] of the tracker's SDK: the first
    page for [None], the page after a cursor otherwise. *)
Variable activities : option jsstring -> Connection.

(** The pagination loop; it has no bound of its own in the source, [fuel]
    bounds the number of further pages and [None] is running out of it. *)
Fixpoint fetchRemaining (fuel : nat) (connection : Connection)
    : option (list LoggedActivity) :=
  if hasNextPage connection && negb (falsy (endCursor connection)) then
    match fuel with
    | 0 => None
    | S fuel' =>
        let next := activities (endCursor connection) in
        option_map (app (nodes next)) (fetchRemaining fuel' next)
    end
  else Some [].

Definition fetchAllActivities (fuel : nat) : option (list LoggedActivity) :=
  let first := activities None in
  option_map (app (nodes first)) (fetchRemaining fuel first).

Definition toMessage (a : LoggedActivity) : ChatMessage :=
  mkMessage (if isPrompt a then user else assistant)
            (match loggedBody a with Some b => b | None => [] end).

Definition generateMessagesFromPreviousActivities (fuel : nat)
    : option (list ChatMessage) :=
  option_map
    (fun allActivities =>
       List.map toMessage
         (rev (filter (fun a => isPrompt a || isResponse a) allActivities)))
    (fetchAllActivities fuel).

Variable prompt : jsstring.

(** The seed of the conversation, lines 35-39 of [handleUserPrompt]. *)
Definition initialMessages (userPrompt : jsstring)
    (previous : list ChatMessage) : list ChatMessage :=
  mkMessage system prompt
  :: match userPrompt with
     | [] => []
     | _ => [mkMessage user userPrompt]
     end
  ++ previous.
End History.

(** ** The agent loop *)

(** What a run does to the outside, in order; [Activity c] is a write of
    [c] the tracker accepted, [Rejected c] one it refused. *)
Inductive event :=
| Completion (tick : nat) (sent : list ChatMessage)
| ToolCall (tick : nat) (action : ToolName) (parameter : option jsstring)
| Activity (c : Content)
| Rejected (c : Content)
| Delay.

(** The variables [handleUserPrompt] mutates, with the trace of its
    effects; [escaped] is the exception that has left [handleUserPrompt],
    when one has. *)
Record state := mkState
  { messages : list ChatMessage;
    taskComplete : bool;
    iterations : nat;
    trace : list event;
    escaped : option thrown }.

(** A step of the loop body: it may throw, and what it did before throwing
    stays done. *)
Definition M (A : Type) := state -> result A * state.

Definition ret {A} (a : A) : M A := fun st => (Return a, st).

Definition bind {A B} (c : M A) (f : A -> M B) : M B :=
  fun st =>
    match c st with
    | (Return a, st') => f a st'
    | (Throw e, st') => (Throw e, st')
    end.

Definition liftResult {A} (r : result A) : M A := fun st => (r, st).

Declare Scope agent_scope.
Delimit Scope agent_scope with agent.
Notation "x <- c ;; k" := (bind c (fun x => k))
  (at level 61, c at next level, right associativity) : agent_scope.
Notation "c ;; k" := (bind c (fun _ => k))
  (at level 61, right associativity) : agent_scope.

Definition emit (e : event) : M unit :=
  fun st => (Return tt,
             mkState (messages st) (taskComplete st) (iterations st)
                     (trace st ++ [e]) (escaped st)).

(** [messages.push(m)] *)
Definition push (m : ChatMessage) : M unit :=
  fun st => (Return tt,
             mkState (messages st ++ [m]) (taskComplete st) (iterations st)
                     (trace st) (escaped st)).

(** [taskComplete = true] *)
Definition complete : M unit :=
  fun st => (Return tt,
             mkState (messages st) true (iterations st) (trace st)
                     (escaped st)).

(** [await new Promise((resolve) => setTimeout(resolve, 1000))] *)
Definition sleep : M unit := emit Delay.

(** An exception leaves [handleUserPrompt]. *)
Definition leave (e : thrown) (st : state) : state :=
  mkState (messages st) (taskComplete st) (iterations st) (trace st) (Some e).

Definition MAX_ITERATIONS : nat := 10.

Definition maxIterationsMessage : jsstring :=
  lit "The agent has reached the maximum number of iterations and will now stop.".

Section Loop.
Variable UnreachableCaseError : AgentActivityType -> thrown.
Variable number : Type.
Variable StringToNumber : jsstring -> number.
Variable value : Type.
Variable JSON_stringify : value -> jsstring.
Variable getCoordinates : nat -> jsstring -> result value.
Variable getWeather : nat -> number -> number -> result value.
Variable getTime : nat -> number -> number -> result jsstring.

(** [this.openai.chat.completions.create] at iteration [tick] on the
    messages sent: the content of the first choice ([None] when there is
    none), or what the call throws. *)
Variable createCompletion :
  nat -> list ChatMessage -> result (option jsstring).

(** The tracker's answer to [linearClient.createAgentActivity] for a
    content, given what the run has done so far: the write is accepted, or
    the call throws. *)
Variable createActivity : list event -> Content -> result unit.

(** [await this.linearClient.createAgentActivity({ agentSessionId,
    content })] *)
Definition createAgentActivity (c : Content) : M unit :=
  fun st =>
    match createActivity (trace st) c with
    | Return _ => emit (Activity c) st
    | Throw e => (Throw e, snd (emit (Rejected c) st))
    end.

(** [callOpenAI], lines 251-268: the content of the first choice, or
    ["No response"] when it is absent or empty; what the request throws is
    wrapped in a new [Error]. *)
Definition completionText (tick : nat) (sent : list ChatMessage)
    : result jsstring :=
  match createCompletion tick sent with
  | Return (Some (c :: s)) => Return (c :: s)
  | Return _ => Return (lit "No response")
  | Throw error =>
      Throw (JsError (lit "OpenAI API error: " ++ messageOf error))
  end.

Definition callOpenAI : M jsstring :=
  fun st =>
    let (_, st1) := emit (Completion (iterations st) (messages st)) st in
    (completionText (iterations st) (messages st), st1).

Definition runTool (action : ToolName) (parameter : option jsstring)
    : M jsstring :=
  fun st =>
    let (_, st1) := emit (ToolCall (iterations st) action parameter) st in
    (executeAction StringToNumber JSON_stringify getCoordinates getWeather
       getTime (iterations st) action parameter, st1).

(** The body of the [try] block, lines 48-116. *)
Definition tryBlock : M unit :=
  (response <- callOpenAI ;;
   content <- liftResult
     (mapResponseToLinearActivityContent UnreachableCaseError response) ;;
   match content with
   | ThoughtContent _ =>
       createAgentActivity content ;;
       push (mkMessage assistant response) ;;
       sleep
   | ActionContent toolName parameter _ =>
       createAgentActivity content ;;
       toolResult <- runTool toolName parameter ;;
       push (mkMessage assistant response) ;;
       push (mkMessage user (lit "Tool result: " ++ toolResult)) ;;
       createAgentActivity
         (ActionContent toolName
            (if falsy parameter then None else parameter)
            (Some toolResult)) ;;
       sleep
   | ResponseContent _ | ErrorContent _ | ElicitationContent _ =>
       createAgentActivity content ;;
       complete
   end)%agent.

(** The [catch] block, lines 117-129. *)
Definition catchBlock (error : thrown) : M unit :=
  (createAgentActivity
     (ErrorContent (lit "Agent error: " ++ messageOf error)) ;;
   complete)%agent.

(** One turn of the [while] loop: [iterations++], then [try]/[catch]; what
    the [catch] block throws leaves the function. *)
Definition iteration (st : state) : state :=
  let st := mkState (messages st) (taskComplete st) (S (iterations st))
                    (trace st) (escaped st) in
  match tryBlock st with
  | (Return _, st') => st'
  | (Throw error, st') =>
      match catchBlock error st' with
      | (Return _, st'') => st''
      | (Throw escaping, st'') => leave escaping st''
      end
  end.

(** [!taskComplete && iterations < this.MAX_ITERATIONS] *)
Definition loopCondition (st : state) : bool :=
  negb (taskComplete st) && (iterations st <? MAX_ITERATIONS).

(** The loop goes on: no exception has left the function and the condition
    of the [while] holds. *)
Definition running (st : state) : bool :=
  match escaped st with
  | Some _ => false
  | None => loopCondition st
  end.

(** [while (!taskComplete && iterations < this.MAX_ITERATIONS)], with
    [fuel] bounding the number of turns. *)
Fixpoint while (fuel : nat) (st : state) : state :=
  match fuel with
  | 0 => st
  | S fuel' => if running st then while fuel' (iteration st) else st
  end.

(** Lines 132-142: the activity written when the budget is exhausted;
    nothing when an exception has already left the function. *)
Definition afterLoop (st : state) : state :=
  match escaped st with
  | Some _ => st
  | None =>
      if negb (taskComplete st) && (MAX_ITERATIONS <=? iterations st) then
        match createAgentActivity (ErrorContent maxIterationsMessage) st with
        | (Return _, st') => st'
        | (Throw escaping, st') => leave escaping st'
        end
      else st
  end.

(** Lines 41-142 of [handleUserPrompt], from the seeded conversation. The
    counter starts at 0 and each turn adds one, so [MAX_ITERATIONS] turns
    of fuel are all the loop can use (see [while_fuel]). *)
Definition agentLoop (seed : list ChatMessage) : state :=
  afterLoop (while MAX_ITERATIONS (mkState seed false 0 [] None)).

Variable activities : option jsstring -> Connection.
Variable prompt : jsstring.

Definition handleUserPrompt (fuel : nat) (userPrompt : jsstring)
    : option state :=
  option_map
    (fun previous => agentLoop (initialMessages prompt userPrompt previous))
    (generateMessagesFromPreviousActivities activities fuel).
End Loop.

(** The activities a run has persisted, in order. *)
Definition persisted (tr : list event) : list Content :=
  flat_map (fun e => match e with Activity c => [c] | _ => [] end) tr.

Definition isTerminal (c : Content) : bool :=
  match c with
  | ResponseContent _ | ErrorContent _ | ElicitationContent _ => true
  | ThoughtContent _ | ActionContent _ _ _ => false
  end.

Definition isCompletion (e : event) : bool :=
  match e with Completion _ _ => true | _ => false end.

Definition isToolCall (e : event) : bool :=
  match e with ToolCall _ _ _ => true | _ => false end.

(** ** Vocabulary of the properties *)

(** [s.includes(k)] *)
Fixpoint includes (k s : jsstring) : bool :=
  startsWith k s
  || match s with
     | _ :: s' => includes k s'
     | [] => false
     end.

(** No registered keyword is a prefix of [response]. *)
Definition noKeywordPrefix (response : jsstring) : bool :=
  forallb (fun e => negb (startsWith (snd e) response)) typeToKeyword.

(** [response] holds, after [pre], a call in the shape of the Action
    pattern: the keyword, white space, an identifier, and a non-empty
    argument text without closing parenthesis between parentheses. *)
Definition callPattern (response pre ws ident args rest : jsstring) : Prop :=
  response = pre ++ ACTION ++ ws ++ ident ++ 40%N :: args ++ 41%N :: rest
  /\ forallb isWhiteSpace ws = true
  /\ ident <> [] /\ forallb isWordChar ident = true
  /\ args <> [] /\ forallb (fun c => negb (c =? 41)%N) args = true.

(** A comma-separated token that [parseFloat] turns into a number. *)
Definition numeric (token : jsstring) : bool :=
  match decimalPrefix (trimStart (trim token)) with
  | Some _ => true
  | None => false
  end.

(** How many of the comma-separated tokens of a parameter are numeric. *)
Definition numericTokens (parameter : jsstring) : nat :=
  List.length (filter numeric (split 44 parameter)).

(** The parameter has two tokens at least and its first two are numeric. *)
Definition firstTwoNumeric (parameter : jsstring) : bool :=
  match split 44 parameter with
  | t0 :: t1 :: _ => numeric t0 && numeric t1
  | _ => false
  end.

(** The turn of the conversation a logged activity stands for: a user
    message for a prompt, an assistant message for a response, nothing for
    the other kinds. *)
Definition turnOf (a : LoggedActivity) : list ChatMessage :=
  match a with
  | PromptActivity b => [mkMessage user b]
  | AgentActivity (ResponseContent b) => [mkMessage assistant b]
  | AgentActivity _ => []
  end.

(** The seed of the conversation in the specification's words: the system
    instruction, the user prompt when it is not empty, then the turns of the
    log, oldest first (the log comes newest first). *)
Definition seededHistory (prompt userPrompt : jsstring)
    (log : list LoggedActivity) : list ChatMessage :=
  [mkMessage system prompt]
  ++ (if jsstring_eqb userPrompt [] then [] else [mkMessage user userPrompt])
  ++ flat_map turnOf (rev log).

(** [follows activities c log n]: the tracker serves [log] in [n] pages
    after page [c]; a page that announces a next page gives its cursor. *)
Inductive follows (activities : option jsstring -> Connection)
    : Connection -> list LoggedActivity -> nat -> Prop :=
| follows_last c :
    hasNextPage c = false -> follows activities c [] 0
| follows_next c cursor log n :
    hasNextPage c = true ->
    endCursor c = Some cursor -> cursor <> [] ->
    follows activities (activities (Some cursor)) log n ->
    follows activities c (nodes (activities (Some cursor)) ++ log) (S n).

Definition terminalCount (cs : list Content) : nat :=
  List.length (filter isTerminal cs).

Definition isErrorContent (c : Content) : bool :=
  match c with ErrorContent _ => true | _ => false end.

Definition errorCount (cs : list Content) : nat :=
  List.length (filter isErrorContent cs).

Definition isThought (c : Content) : bool :=
  match c with ThoughtContent _ => true | _ => false end.

(** The state at the head of the loop's first turn. *)

(** The state at the head of the loop's first turn. *)
Definition initialState (seed : list ChatMessage) : state :=
  mkState seed false 0 [] None.

(** The state in which the [try] block of a turn starts: [iterations++]
    is done. *)
Definition entered (st : state) : state :=
  mkState (messages st) (taskComplete st) (S (iterations st)) (trace st)
          (escaped st).

(** The task is complete or an exception has left the function. *)
Definition ended (st : state) : bool :=
  taskComplete st
  || match escaped st with Some _ => true | None => false end.

(** What holds of the state at the head of every turn: a terminal activity
    is persisted exactly when the task is complete, each turn has asked for
    one completion, and the counter is within the budget. *)
Definition consistent (st : state) : Prop :=
  terminalCount (persisted (trace st)) = (if taskComplete st then 1 else 0)
  /\ List.length (filter isCompletion (trace st)) = iterations st
  /\ iterations st <= MAX_ITERATIONS.

Definition agentError (e : thrown) : Content :=
  ErrorContent (lit "Agent error: " ++ messageOf e).

Definition isDelay (e : event) : bool :=
  match e with Delay => true | _ => false end.

(** The record that announces a tool run, and the one that reports it. *)
Definition isIntent (e : event) : bool :=
  match e with Activity (ActionContent _ _ None) => true | _ => false end.

Definition isOutcome (e : event) : bool :=
  match e with Activity (ActionContent _ _ (Some _)) => true | _ => false end.

Definition count (p : event -> bool) (tr : list event) : nat :=
  List.length (filter p tr).

(** ** The paths of a turn

    [tried st r st']: the [try] block, started in [st], ends with [r] in
    [st']; one rule for each path through lines 48-116. [turned st st']:
    one turn of the loop makes [st'] of [st]; the [try] block returns, or
    it throws and the [catch] block writes the error, or the tracker
    refuses that write too and the exception leaves the function. *)

Section Turn.
Variable UnreachableCaseError : AgentActivityType -> thrown.
Variable number : Type.
Variable StringToNumber : jsstring -> number.
Variable value : Type.
Variable JSON_stringify : value -> jsstring.
Variable getCoordinates : nat -> jsstring -> result value.
Variable getWeather : nat -> number -> number -> result value.
Variable getTime : nat -> number -> number -> result jsstring.
Variable createCompletion :
  nat -> list ChatMessage -> result (option jsstring).
Variable createActivity : list event -> Content -> result unit.

Inductive tried (st : state) : result unit -> state -> Prop :=
| tried_completion_throws e :
    completionText createCompletion (iterations st) (messages st) = Throw e ->
    tried st (Throw e)
      (mkState (messages st) (taskComplete st) (iterations st)
         (trace st ++ [Completion (iterations st) (messages st)])
         (escaped st))
| tried_mapper_throws response e :
    completionText createCompletion (iterations st) (messages st)
    = Return response ->
    mapResponseToLinearActivityContent UnreachableCaseError response
    = Throw e ->
    tried st (Throw e)
      (mkState (messages st) (taskComplete st) (iterations st)
         (trace st ++ [Completion (iterations st) (messages st)])
         (escaped st))
| tried_write_rejected response c e :
    completionText createCompletion (iterations st) (messages st)
    = Return response ->
    mapResponseToLinearActivityContent UnreachableCaseError response
    = Return c ->
    createActivity (trace st ++ [Completion (iterations st) (messages st)]) c
    = Throw e ->
    tried st (Throw e)
      (mkState (messages st) (taskComplete st) (iterations st)
         (trace st ++ [ Completion (iterations st) (messages st);
                        Rejected c ])
         (escaped st))
| tried_thought response b :
    completionText createCompletion (iterations st) (messages st)
    = Return response ->
    mapResponseToLinearActivityContent UnreachableCaseError response
    = Return (ThoughtContent b) ->
    createActivity (trace st ++ [Completion (iterations st) (messages st)])
      (ThoughtContent b) = Return tt ->
    tried st (Return tt)
      (mkState (messages st ++ [mkMessage assistant response])
         (taskComplete st) (iterations st)
         (trace st ++ [ Completion (iterations st) (messages st);
                        Activity (ThoughtContent b); Delay ])
         (escaped st))
| tried_terminal response c :
    completionText createCompletion (iterations st) (messages st)
    = Return response ->
    mapResponseToLinearActivityContent UnreachableCaseError response
    = Return c ->
    isTerminal c = true ->
    createActivity (trace st ++ [Completion (iterations st) (messages st)]) c
    = Return tt ->
    tried st (Return tt)
      (mkState (messages st) true (iterations st)
         (trace st ++ [ Completion (iterations st) (messages st);
                        Activity c ])
         (escaped st))
| tried_tool_throws response tool p e :
    completionText createCompletion (iterations st) (messages st)
    = Return response ->
    mapResponseToLinearActivityContent UnreachableCaseError response
    = Return (ActionContent tool p None) ->
    createActivity (trace st ++ [Completion (iterations st) (messages st)])
      (ActionContent tool p None) = Return tt ->
    executeAction StringToNumber JSON_stringify getCoordinates getWeather
      getTime (iterations st) tool p = Throw e ->
    tried st (Throw e)
      (mkState (messages st) (taskComplete st) (iterations st)
         (trace st ++ [ Completion (iterations st) (messages st);
                        Activity (ActionContent tool p None);
                        ToolCall (iterations st) tool p ])
         (escaped st))
| tried_outcome_rejected response tool p toolResult e :
    completionText createCompletion (iterations st) (messages st)
    = Return response ->
    mapResponseToLinearActivityContent UnreachableCaseError response
    = Return (ActionContent tool p None) ->
    createActivity (trace st ++ [Completion (iterations st) (messages st)])
      (ActionContent tool p None) = Return tt ->
    executeAction StringToNumber JSON_stringify getCoordinates getWeather
      getTime (iterations st) tool p = Return toolResult ->
    createActivity
      (trace st ++ [ Completion (iterations st) (messages st);
                     Activity (ActionContent tool p None);
                     ToolCall (iterations st) tool p ])
      (ActionContent tool p (Some toolResult)) = Throw e ->
    tried st (Throw e)
      (mkState
         (messages st
          ++ [ mkMessage assistant response;
               mkMessage user (lit "Tool result: " ++ toolResult) ])
         (taskComplete st) (iterations st)
         (trace st ++ [ Completion (iterations st) (messages st);
                        Activity (ActionContent tool p None);
                        ToolCall (iterations st) tool p;
                        Rejected (ActionContent tool p (Some toolResult)) ])
         (escaped st))
| tried_action response tool p toolResult :
    completionText createCompletion (iterations st) (messages st)
    = Return response ->
    mapResponseToLinearActivityContent UnreachableCaseError response
    = Return (ActionContent tool p None) ->
    createActivity (trace st ++ [Completion (iterations st) (messages st)])
      (ActionContent tool p None) = Return tt ->
    executeAction StringToNumber JSON_stringify getCoordinates getWeather
      getTime (iterations st) tool p = Return toolResult ->
    createActivity
      (trace st ++ [ Completion (iterations st) (messages st);
                     Activity (ActionContent tool p None);
                     ToolCall (iterations st) tool p ])
      (ActionContent tool p (Some toolResult)) = Return tt ->
    tried st (Return tt)
      (mkState
         (messages st
          ++ [ mkMessage assistant response;
               mkMessage user (lit "Tool result: " ++ toolResult) ])
         (taskComplete st) (iterations st)
         (trace st ++ [ Completion (iterations st) (messages st);
                        Activity (ActionContent tool p None);
                        ToolCall (iterations st) tool p;
                        Activity (ActionContent tool p (Some toolResult));
                        Delay ])
         (escaped st)).

Inductive turned (st : state) : state -> Prop :=
| turned_done st1 :
    tried (entered st) (Return tt) st1 -> turned st st1
| turned_caught e st1 :
    tried (entered st) (Throw e) st1 ->
    createActivity (trace st1) (agentError e) = Return tt ->
    turned st
      (mkState (messages st1) true (iterations st1)
         (trace st1 ++ [Activity (agentError e)]) (escaped st1))
| turned_escaped e st1 escaping :
    tried (entered st) (Throw e) st1 ->
    createActivity (trace st1) (agentError e) = Throw escaping ->
    turned st
      (mkState (messages st1) (taskComplete st1) (iterations st1)
         (trace st1 ++ [Rejected (agentError e)]) (Some escaping)).
End Turn.

(** What the loop keeps about the order of its effects, for a run seeded
    with [seed]. *)
Definition orderly (seed : list ChatMessage) (st : state) : Prop :=
  (exists more,
      messages st = seed ++ more
      /\ forallb (fun m => match role m with system => false | _ => true end)
           more = true)
  /\ count isDelay (trace st) + (if ended st then 1 else 0) = iterations st
  /\ (taskComplete st = true ->
      escaped st = None
      /\ exists tr c, trace st = tr ++ [Activity c] /\ isTerminal c = true)
  /\ (forall e, escaped st = Some e ->
      taskComplete st = false
      /\ exists tr e0, trace st = tr ++ [Rejected (agentError e0)])
  /\ count isIntent (trace st) = count isToolCall (trace st)
  /\ count isOutcome (trace st) + (if ended st then 1 else 0)
     >= count isToolCall (trace st)
  /\ count isOutcome (trace st) <= count isToolCall (trace st)
  /\ (ended st = false ->
      count isOutcome (trace st) = count isToolCall (trace st))
  /\ (iterations st = 0 -> trace st = [] /\ messages st = seed)
  /\ (iterations st <> 0 -> exists tr, trace st = Completion 1 seed :: tr).

(** ** The worker ([src/index.ts]) *)

Record Request := mkRequest
  { pathname : jsstring;          (* [new URL(request.url).pathname] *)
    method : jsstring;
    bodyText : jsstring;          (* [await request.text()] *)
    signatureHeader : option jsstring }.

Record Env := mkEnv
  { LINEAR_WEBHOOK_SECRET : option jsstring;
    OPENAI_API_KEY : option jsstring }.

(** [Response] of the platform: a body and a status. *)
Record HttpResponse := mkResponse { responseBody : jsstring; status : nat }.

(** [webhook.agentSession], with [issue?.title] and [comment?.body];
    [None] is [undefined]. *)
Record AgentSession := mkAgentSession
  { sessionId : jsstring;
    issueTitle : option jsstring;
    commentBody : option jsstring }.

Definition generateUserPrompt (session : AgentSession) : jsstring :=
  let title := match issueTitle session with Some t => t | None => [] end in
  let comment := match commentBody session with Some b => b | None => [] end in
  if negb (falsy (issueTitle session)) && negb (falsy (commentBody session))
  then lit "Issue: " ++ title ++ [10; 10]%N ++ lit "Task: " ++ comment
  else if negb (falsy (issueTitle session)) then lit "Task: " ++ title
  else if negb (falsy (commentBody session)) then lit "Task: " ++ comment
  else [].

(** ["Weather bot says hello! "] and the sun-behind-cloud emoji (a
    surrogate pair and a variation selector). *)
Definition greeting : jsstring :=
  lit "Weather bot says hello! " ++ [55356; 57124; 65039]%N.

Definition respond (body : jsstring) (code : nat) : HttpResponse :=
  mkResponse body code.

(** [request.headers.get(LINEAR_WEBHOOK_SIGNATURE_HEADER) || ""] *)
Definition signatureOf (request : Request) : jsstring :=
  match signatureHeader request with
  | Some (c :: s) => c :: s
  | _ => []
  end.

(** What [await agentClient.handleUserPrompt(...)] gives: the final state
    of the run, or the exception that left it ([None] is the pagination out
    of fuel). *)
Definition settled (run : option state) : result (option state) :=
  match run with
  | Some st =>
      match escaped st with
      | Some e => Throw e
      | None => Return (Some st)
      end
  | None => Return None
  end.

Section Worker.
Variable UnreachableCaseError : AgentActivityType -> thrown.
Variable number : Type.
Variable StringToNumber : jsstring -> number.
Variable value : Type.
Variable JSON_stringify : value -> jsstring.
Variable getCoordinates : nat -> jsstring -> result value.
Variable getWeather : nat -> number -> number -> result value.
Variable getTime : nat -> number -> number -> result jsstring.
Variable prompt : jsstring.

(** The completion API under an API key, and the tracker's activities
    under an access token for a session: what the two clients of
    [new AgentClient(linearAccessToken, openaiApiKey)] reach. *)
Variable completions :
  option jsstring -> nat -> list ChatMessage -> result (option jsstring).
Variable tracker : jsstring -> jsstring -> option jsstring -> Connection.

(** The tracker's answer to the writes of activities under an access token
    for a session. *)
Variable writes : jsstring -> jsstring -> list event -> Content -> result unit.

(** What the parsed body of a webhook holds of the fields the worker reads;
    a field that is absent, or not of the type the worker compares it with,
    is [None]. *)
Record Payload := mkPayload
  { eventType : option jsstring;
    webhookTimestamp : option value;
    organizationId : option value;
    agentSession : option AgentSession }.

(** The pieces outside src/: [JSON.parse] ([Return None] is the JSON
    [null]), the signature check of the tracker's SDK, the token store and
    the OAuth handlers of [./lib/oauth], and what reading a property of
    [undefined] or [null] throws. *)
Variable JSON_parse : jsstring -> result (option Payload).
Variable verify :
  option jsstring -> jsstring -> jsstring -> option value -> result bool.
Variable getOAuthToken : Env -> option value -> result (option jsstring).
Variable handleOAuthAuthorize : Request -> Env -> result HttpResponse.
Variable handleOAuthCallback : Request -> Env -> result HttpResponse.
Variable TypeError : thrown.

(** [handleWebhook]: the run of the agent for the session of the event;
    [fuel] is that of the pagination loop. An exception that leaves
    [handleUserPrompt] leaves [handleWebhook] too. *)
Definition handleWebhook (webhook : Payload) (linearAccessToken : jsstring)
    (openaiApiKey : option jsstring) (fuel : nat) : result (option state) :=
  match agentSession webhook with
  | None => Throw TypeError
  | Some session =>
      settled
        (handleUserPrompt UnreachableCaseError StringToNumber JSON_stringify
           getCoordinates getWeather getTime (completions openaiApiKey)
           (writes linearAccessToken (sessionId session))
           (tracker linearAccessToken (sessionId session)) prompt fuel
           (generateUserPrompt session))
  end.

(** What a request leaves: the response, and the task handed to
    [ctx.waitUntil] when there is one (its failure is only logged). *)
Record Outcome := mkOutcome
  { response : HttpResponse;
    background : option (result (option state)) }.

Definition answer (r : HttpResponse) : Outcome := mkOutcome r None.

Definition handlerError : Outcome :=
  answer (respond (lit "Error handling webhook") 500).

Definition handleWebhookWithEventListener (request : Request) (env : Env)
    (fuel : nat) : Outcome :=
  let signature := signatureOf request in
  match JSON_parse (bodyText request) with
  | Throw _ => handlerError
  | Return None => handlerError
  | Return (Some payload) =>
      match verify (LINEAR_WEBHOOK_SECRET env) (bodyText request) signature
              (webhookTimestamp payload) with
      | Throw _ => handlerError
      | Return _ =>
          if match eventType payload with
             | Some t => jsstring_eqb t (lit "AgentSessionEvent")
             | None => false
             end
          then
            match getOAuthToken env (organizationId payload) with
            | Throw _ => handlerError
            | Return token =>
                if falsy token then
                  answer (respond (lit "Linear OAuth token not found") 500)
                else
                  mkOutcome (respond (lit "Webhook handled") 200)
                    (Some (handleWebhook payload
                             (match token with Some t => t | None => [] end)
                             (OPENAI_API_KEY env) fuel))
            end
          else answer (respond (lit "Webhook handled") 200)
      end
  end.

Definition fetch (request : Request) (env : Env) (fuel : nat)
    : result Outcome :=
  if jsstring_eqb (pathname request) (lit "/") then
    Return (answer (respond greeting 200))
  else if jsstring_eqb (pathname request) (lit "/oauth/authorize") then
    bindResult (handleOAuthAuthorize request env)
      (fun r => Return (answer r))
  else if jsstring_eqb (pathname request) (lit "/oauth/callback") then
    bindResult (handleOAuthCallback request env)
      (fun r => Return (answer r))
  else if jsstring_eqb (pathname request) (lit "/webhook")
          && jsstring_eqb (method request) (lit "POST") then
    if falsy (LINEAR_WEBHOOK_SECRET env) then
      Return (answer (respond (lit "Webhook secret not configured") 500))
    else if falsy (OPENAI_API_KEY env) then
      Return (answer (respond (lit "OpenAI API key not configured") 500))
    else Return (handleWebhookWithEventListener request env fuel)
  else Return (answer (respond (lit "OK") 200)).
End Worker.

(** ** Sample environments

    Concrete stand-ins for what lies outside the agent client, on which the
    statements below are instantiated. *)

Definition sampleUnreachable (t : AgentActivityType) : thrown :=
  JsError (lit "Unreachable case").

(** Numbers stand as their literals, tool results as their serialization. *)
Definition sampleCoordinates (tick : nat) (place : jsstring)
    : result jsstring :=
  Return (lit "{lat:40,long:-74}").

Definition sampleWeather (tick : nat) (lat long : jsstring)
    : result jsstring :=
  Return (lit "{temperature:21}").

Definition sampleTime (tick : nat) (lat long : jsstring) : result jsstring :=
  Return (lit "12:00").

Definition sampleExecute : nat -> ToolName -> option jsstring -> result jsstring :=
  executeAction (fun l => l) (fun v => v) sampleCoordinates sampleWeather
    sampleTime.

(** A model that always thinks, one that asks for the weather, and a
    completion API that is down. *)
Definition alwaysThinking (tick : nat) (sent : list ChatMessage)
    : result (option jsstring) :=
  Return (Some (lit "THINKING: still working on it")).

Definition askingWeather (tick : nat) (sent : list ChatMessage)
    : result (option jsstring) :=
  Return (Some (lit "ACTION: getWeather(40.0, -74.0)")).

Definition apiDown (tick : nat) (sent : list ChatMessage)
    : result (option jsstring) :=
  Throw (JsError (lit "503")).

(** A tracker that accepts every write, one that is down, one that
    refuses a write once, and one that refuses the outcome records. *)
Definition accepting (done : list event) (c : Content) : result unit :=
  Return tt.

Definition trackerDown : thrown := JsError (lit "tracker down").

Definition refusing (done : list event) (c : Content) : result unit :=
  Throw trackerDown.

Definition refusingOnce (done : list event) (c : Content) : result unit :=
  if existsb (fun e => match e with Rejected _ => true | _ => false end) done
  then Return tt
  else Throw trackerDown.

Definition refusingOutcomes (done : list event) (c : Content) : result unit :=
  match c with
  | ActionContent _ _ (Some _) => Throw trackerDown
  | _ => Return tt
  end.

Definition sampleRun
    (createCompletion : nat -> list ChatMessage -> result (option jsstring))
    (createActivity : list event -> Content -> result unit)
    : list ChatMessage -> state :=
  agentLoop sampleUnreachable (fun l => l) (fun v => v) sampleCoordinates
    sampleWeather sampleTime createCompletion createActivity.

Definition sampleTurn
    (createCompletion : nat -> list ChatMessage -> result (option jsstring))
    (createActivity : list event -> Content -> result unit)
    : state -> state :=
  iteration sampleUnreachable (fun l => l) (fun v => v) sampleCoordinates
    sampleWeather sampleTime createCompletion createActivity.

Definition sampleLoop (createCompletion : nat -> list ChatMessage ->
                                          result (option jsstring))
    : list ChatMessage -> state :=
  sampleRun createCompletion accepting.

(** A log served in two pages, newest activity first. *)
Definition samplePages (after : option jsstring) : Connection :=
  match after with
  | None =>
      mkConnection
        [ AgentActivity (ResponseContent (lit "Sunny"));
          AgentActivity (ThoughtContent (lit "looking")) ]
        true (Some (lit "c1"))
  | Some _ =>
      mkConnection [ PromptActivity (lit "Weather in Paris?") ] false None
  end.

(** A worker: every webhook body parses to the same agent-session event
    (but "null" and a truncated body), the signature "good" is the valid
    one, and a token is stored. *)
Definition sampleSession : AgentSession :=
  mkAgentSession (lit "s1") (Some (lit "Weather in Paris")) None.

Definition samplePayload : Payload jsstring :=
  mkPayload (Some (lit "AgentSessionEvent")) None None (Some sampleSession).

Definition sampleParse (body : jsstring) : result (option (Payload jsstring)) :=
  if jsstring_eqb body (lit "null") then Return None
  else if jsstring_eqb body (lit "{") then
    Throw (JsError (lit "Unexpected end of JSON input"))
  else Return (Some samplePayload).

Definition sampleVerify (secret : option jsstring) (body signature : jsstring)
    (timestamp : option jsstring) : result bool :=
  if jsstring_eqb signature (lit "good") then Return true
  else Throw (JsError (lit "Invalid webhook signature")).

Definition sampleToken (env : Env) (organization : option jsstring)
    : result (option jsstring) :=
  Return (Some (lit "lin_token")).

Definition sampleOAuth (request : Request) (env : Env) : result HttpResponse :=
  Return (respond (lit "redirect") 302).

Definition sampleEnv : Env := mkEnv (Some (lit "secret")) (Some (lit "key")).

Definition sampleRequest : Request :=
  mkRequest (lit "/webhook") (lit "POST") (lit "{}") (Some (lit "good")).

Definition sampleAgent
    : Payload jsstring -> jsstring -> option jsstring -> nat ->
      result (option state) :=
  handleWebhook sampleUnreachable (fun l => l) (fun v => v) sampleCoordinates
    sampleWeather sampleTime (lit "You are a weather bot.")
    (fun _ => alwaysThinking) (fun _ _ => samplePages) (fun _ _ => accepting)
    (JsError (lit "Cannot read properties of undefined")).

Definition sampleHandler : Request -> Env -> nat -> Outcome :=
  handleWebhookWithEventListener sampleUnreachable (fun l => l) (fun v => v)
    sampleCoordinates sampleWeather sampleTime (lit "You are a weather bot.")
    (fun _ => alwaysThinking) (fun _ _ => samplePages) (fun _ _ => accepting)
    sampleParse
    sampleVerify sampleToken
    (JsError (lit "Cannot read properties of undefined")).

Definition sampleFetch : Request -> Env -> nat -> result Outcome :=
  fetch sampleUnreachable (fun l => l) (fun v => v) sampleCoordinates
    sampleWeather sampleTime (lit "You are a weather bot.")
    (fun _ => alwaysThinking) (fun _ _ => samplePages) (fun _ _ => accepting)
    sampleParse
    sampleVerify sampleToken sampleOAuth sampleOAuth
    (JsError (lit "Cannot read properties of undefined")).

(** ** The specification's sentences that the code does not satisfy as
    they are written *)

(** Every completion starting with a registered keyword maps to the variant
    of the keyword, with the rest of the text, trimmed, as body. *)
Definition keywordClaim (U : AgentActivityType -> thrown) : Prop :=
  forall t keyword rest,
    In (t, keyword) typeToKeyword ->
    exists c,
      mapResponseToLinearActivityContent U (keyword ++ rest) = Return c
      /\ contentType c = t /\ contentBody c = Some (trim rest).

(** Every completion without keyword prefix maps to a Thought whose body is
    the whole text, trimmed. *)
Definition defaultClaim (U : AgentActivityType -> thrown) : Prop :=
  forall response,
    noKeywordPrefix response = true ->
    mapResponseToLinearActivityContent U response
    = Return (ThoughtContent (trim response)).

(** The get-weather executor throws the invalid-parameter error exactly when
    fewer than two tokens of the parameter are numeric. *)
Definition weatherClaim
    (execute : nat -> ToolName -> option jsstring -> result jsstring) : Prop :=
  forall tick parameter,
    execute tick GetWeather (Some parameter)
    = Throw (JsError (lit "Invalid parameter for getWeather action"))
    <-> numericTokens parameter < 2.

(** When every completion maps to a Thought the run makes 10 turns and
    persists 10 Thoughts, then the Error of the reached limit. *)
Definition thinkingClaim
    (createCompletion : nat -> list ChatMessage -> result (option jsstring))
    (createActivity : list event -> Content -> result unit) : Prop :=
  (forall tick sent, exists response b,
      completionText createCompletion tick sent = Return response
      /\ mapResponseToLinearActivityContent sampleUnreachable response
         = Return (ThoughtContent b)) ->
  forall seed,
    iterations (sampleRun createCompletion createActivity seed) = 10
    /\ exists thoughts,
         persisted (trace (sampleRun createCompletion createActivity seed))
         = thoughts ++ [ErrorContent maxIterationsMessage]
         /\ List.length thoughts = 10
         /\ forallb isThought thoughts = true.

(** When the [try] block of a turn throws, the run persists exactly one
    Error activity, the one with the message of what was thrown. *)
Definition failureClaim
    (createCompletion : nat -> list ChatMessage -> result (option jsstring))
    (createActivity : list event -> Content -> result unit) : Prop :=
  forall seed e st',
    tryBlock sampleUnreachable (fun l => l) (fun v => v) sampleCoordinates
      sampleWeather sampleTime createCompletion createActivity
      (entered (initialState seed)) = (Throw e, st') ->
    errorCount
      (persisted (trace (sampleRun createCompletion createActivity seed))) = 1
    /\ In (agentError e)
         (persisted (trace (sampleRun createCompletion createActivity seed))).

(** A turn whose completion maps to an action and whose tool returns
    persists the intent record and then the outcome record. *)
Definition actionClaim
    (createCompletion : nat -> list ChatMessage -> result (option jsstring))
    (createActivity : list event -> Content -> result unit) : Prop :=
  forall st response tool parameter result0 toolResult,
    completionText createCompletion (S (iterations st)) (messages st)
    = Return response ->
    mapResponseToLinearActivityContent sampleUnreachable response
    = Return (ActionContent tool parameter result0) ->
    sampleExecute (S (iterations st)) tool parameter = Return toolResult ->
    persisted (trace (sampleTurn createCompletion createActivity st))
    = persisted (trace st)
      ++ [ ActionContent tool parameter None;
           ActionContent tool parameter (Some toolResult) ].

(** * Properties *)

Unset Implicit Arguments.

(** ** Strings *)

Lemma startsWith_app k s : startsWith k (k ++ s) = true.
Proof.
  induction k as [|a k IH]; simpl; [reflexivity|].
  now rewrite N.eqb_refl, IH.
Qed.

Lemma startsWith_inv k : forall s,
  startsWith k s = true -> s = k ++ skipn (List.length k) s.
Proof.
  induction k as [|a k IH]; intros s H; simpl in *; [reflexivity|].
  destruct s as [|b s]; [discriminate|].
  apply andb_true_iff in H as [Hab Hk].
  apply N.eqb_eq in Hab; subst b.
  f_equal. now apply IH.
Qed.

Lemma replace_first_unfold k s :
  replace_first k s
  = if startsWith k s then skipn (List.length k) s
    else match s with
         | c :: s' => c :: replace_first k s'
         | [] => []
         end.
Proof. destruct s; reflexivity. Qed.

Lemma replace_first_prefix k s : replace_first k (k ++ s) = s.
Proof.
  rewrite replace_first_unfold, startsWith_app.
  rewrite skipn_app, skipn_all, Nat.sub_diag. reflexivity.
Qed.

Lemma replace_first_absent k : forall s,
  includes k s = false -> replace_first k s = s.
Proof.
  induction s as [|c s IH]; intros H; rewrite replace_first_unfold;
    simpl in H; apply orb_false_iff in H as [H1 H2].
  - destruct (startsWith k []) eqn:E; [discriminate | reflexivity].
  - destruct (startsWith k (c :: s)) eqn:E; [discriminate|].
    now rewrite IH.
Qed.

(** ** The activity mapper: keyword prefixes *)

Lemma mappedType_default response :
  noKeywordPrefix response = true -> mappedType response = Thought.
Proof.
  unfold noKeywordPrefix, mappedType. simpl.
  repeat rewrite andb_true_iff. repeat rewrite negb_true_iff.
  intros (H1 & H2 & H3 & H4 & H5 & _).
  now rewrite H1, H2, H3, H4, H5.
Qed.

(** C4, as amended: a completion that starts with the keyword of Thought,
    Response, Elicitation or Error maps to the activity of that variant, and
    its body is the text after the keyword, trimmed. (An ACTION: completion
    has no body: it maps to an action with a tool and a parameter, or
    throws.) *)
Theorem mapper_keyword_body (U : AgentActivityType -> thrown) t keyword rest :
  In (t, keyword) typeToKeyword ->
  t <> Action ->
  exists c,
    mapResponseToLinearActivityContent U (keyword ++ rest) = Return c
    /\ contentType c = t /\ contentBody c = Some (trim rest).
Proof.
  intros Hin Hna. simpl in Hin.
  destruct Hin as [E|[E|[E|[E|[E|[]]]]]]; inversion E; subst t keyword;
    try congruence.
  - exists (ThoughtContent (trim rest)).
    unfold mapResponseToLinearActivityContent.
    replace (mappedType (THINKING ++ rest)) with Thought by reflexivity.
    unfold stripKeyword. now rewrite replace_first_prefix.
  - exists (ResponseContent (trim rest)).
    unfold mapResponseToLinearActivityContent.
    replace (mappedType (RESPONSE ++ rest)) with Response by reflexivity.
    unfold stripKeyword. now rewrite replace_first_prefix.
  - exists (ElicitationContent (trim rest)).
    unfold mapResponseToLinearActivityContent.
    replace (mappedType (ELICITATION ++ rest)) with Elicitation by reflexivity.
    unfold stripKeyword. now rewrite replace_first_prefix.
  - exists (ErrorContent (trim rest)).
    unfold mapResponseToLinearActivityContent.
    replace (mappedType (ERROR ++ rest)) with Error by reflexivity.
    unfold stripKeyword. now rewrite replace_first_prefix.
Qed.

Lemma mapper_keyword_body_witness :
  exists c,
    mapResponseToLinearActivityContent sampleUnreachable
      (RESPONSE ++ lit " It is sunny in Paris. ") = Return c
    /\ contentType c = Response
    /\ contentBody c = Some (trim (lit " It is sunny in Paris. ")).
Proof.
  apply (mapper_keyword_body sampleUnreachable Response RESPONSE
           (lit " It is sunny in Paris. ")).
  - simpl. right. right. left. reflexivity.
  - discriminate.
Defined.

(** C4, as written, fails on the ACTION: keyword: the activity of
    "ACTION: getWeather(40.0, -74.0)" is an action, which has no body. *)
Lemma keywordClaim_fails : ~ keywordClaim sampleUnreachable.
Proof.
  intros claim.
  destruct (claim Action ACTION (lit " getWeather(40.0, -74.0)"))
    as (c & Hc & _ & Hbody).
  - simpl. right. left. reflexivity.
  - vm_compute in Hc. inversion Hc; subst c. discriminate Hbody.
Qed.

(** C5, as amended: a completion that starts with no registered keyword and
    does not contain "THINKING:" maps to a Thought whose body is the whole
    text, trimmed. *)
Theorem mapper_default_thought (U : AgentActivityType -> thrown) response :
  noKeywordPrefix response = true ->
  includes THINKING response = false ->
  mapResponseToLinearActivityContent U response
  = Return (ThoughtContent (trim response)).
Proof.
  intros Hno Habs. unfold mapResponseToLinearActivityContent.
  rewrite (mappedType_default _ Hno). unfold stripKeyword.
  now rewrite (replace_first_absent _ _ Habs).
Qed.

Lemma mapper_default_thought_witness :
  mapResponseToLinearActivityContent sampleUnreachable
    (lit "  Let me look that up. ")
  = Return (ThoughtContent (trim (lit "  Let me look that up. "))).
Proof.
  apply (mapper_default_thought sampleUnreachable
           (lit "  Let me look that up. ")); reflexivity.
Defined.

(** C5, as written, fails when the keyword of Thought occurs after the start
    of the text: [replace] removes that occurrence from the body. *)
Lemma defaultClaim_fails : ~ defaultClaim sampleUnreachable.
Proof.
  intros claim.
  specialize (claim (lit " THINKING: checking the forecast") eq_refl).
  vm_compute in claim. discriminate claim.
Qed.

(** What the mapper makes of that text: the keyword is gone. *)
Lemma mapper_default_inner_keyword :
  mapResponseToLinearActivityContent sampleUnreachable
    (lit " THINKING: checking the forecast")
  = Return (ThoughtContent (lit "checking the forecast")).
Proof. reflexivity. Qed.

(** ** The regular expression *)

Lemma jsstring_eqb_eq a : forall b, jsstring_eqb a b = true <-> a = b.
Proof.
  induction a as [|x a IH]; intros [|y b]; simpl; split; intros H;
    try reflexivity; try discriminate.
  - apply andb_true_iff in H as [Hx Ha]. apply N.eqb_eq in Hx.
    apply IH in Ha. now subst.
  - inversion H; subst. rewrite N.eqb_refl. simpl. now apply IH.
Qed.

Lemma word_not_space c : isWordChar c = true -> isWhiteSpace c = false.
Proof.
  intros Hw. apply not_true_is_false. intros Hs.
  unfold isWordChar in Hw. unfold isWhiteSpace in Hs. simpl in Hs.
  repeat rewrite ?orb_true_iff, ?andb_true_iff, ?N.leb_le, ?N.eqb_eq in Hw.
  repeat rewrite ?orb_true_iff, ?andb_true_iff, ?N.leb_le, ?N.eqb_eq in Hs.
  lia.
Qed.

Section Greedy.
Variable R : Type.
Variable p : N -> bool.
Variable k : jsstring -> jsstring -> option R.

(** When the continuation accepts the longest run, that is the match. *)
Lemma greedy_run run c rest r : forall taken,
  forallb p run = true -> p c = false ->
  k (taken ++ run) (c :: rest) = Some r ->
  greedy p k taken (run ++ c :: rest) = Some r.
Proof.
  induction run as [|a run IH]; intros taken Hrun Hc Hk; simpl.
  - rewrite Hc. now rewrite app_nil_r in Hk.
  - simpl in Hrun. apply andb_true_iff in Hrun as [Ha Hrun].
    rewrite Ha. rewrite (IH (taken ++ [a])); auto.
    now rewrite <- app_assoc.
Qed.

(** Whatever is matched, the repetition took a run of the class. *)
Lemma greedy_sound s r : forall taken,
  greedy p k taken s = Some r ->
  exists run rest,
    s = run ++ rest /\ forallb p run = true
    /\ k (taken ++ run) rest = Some r.
Proof.
  induction s as [|a s IH]; intros taken H; simpl in H.
  - exists [], []. repeat split; rewrite ?app_nil_r; auto.
  - destruct (p a) eqn:Ha.
    + destruct (greedy p k (taken ++ [a]) s) eqn:Hg.
      * inversion H; subst r0.
        destruct (IH _ Hg) as (run & rest & Es & Hrun & Hk).
        exists (a :: run), rest. simpl. rewrite Ha, Hrun, Es.
        rewrite <- app_assoc in Hk. repeat split; auto.
      * exists [], (a :: s). repeat split; rewrite ?app_nil_r; auto.
    + exists [], (a :: s). repeat split; rewrite ?app_nil_r; auto.
Qed.
End Greedy.

Lemma regexMatch_unfold ps s :
  regexMatch ps s
  = match matchHere ps s [] with
    | Some caps => Some caps
    | None =>
        match s with
        | [] => None
        | _ :: s' => regexMatch ps s'
        end
    end.
Proof. destruct s; reflexivity. Qed.

Lemma regexMatch_here ps s caps :
  matchHere ps s [] = Some caps -> regexMatch ps s = Some caps.
Proof. intros H. destruct s; simpl; now rewrite H. Qed.

Lemma matchHere_keyword tail caps :
  matchHere actionPattern (ACTION ++ tail) caps
  = matchHere callPieces tail caps.
Proof. reflexivity. Qed.

Lemma matchHere_once c ps s caps :
  matchHere (exactly c :: ps) (c :: s) caps = matchHere ps s caps.
Proof. simpl. now rewrite N.eqb_refl. Qed.

Lemma matchHere_star p ps s caps :
  matchHere (mkPiece p ZeroOrMore false :: ps) s caps
  = greedy p (fun _ rest => matchHere ps rest caps) [] s.
Proof. reflexivity. Qed.

Lemma matchHere_plus p ps c s caps :
  p c = true ->
  matchHere (mkPiece p OneOrMore true :: ps) (c :: s) caps
  = greedy p (fun taken rest => matchHere ps rest (caps ++ [taken])) [c] s.
Proof. intros H. simpl. now rewrite H. Qed.

Lemma matchHere_call ws ident args rest :
  forallb isWhiteSpace ws = true ->
  ident <> [] -> forallb isWordChar ident = true ->
  args <> [] -> forallb (fun c => negb (c =? 41)%N) args = true ->
  matchHere callPieces (ws ++ ident ++ 40%N :: args ++ 41%N :: rest) []
  = Some [ident; args].
Proof.
  intros Hws Hi Hident Ha Hargs.
  destruct ident as [|i0 ident]; [congruence|].
  destruct args as [|a0 args]; [congruence|].
  simpl in Hident, Hargs.
  apply andb_true_iff in Hident as [Hi0 Hident].
  apply andb_true_iff in Hargs as [Ha0 Hargs].
  unfold callPieces.
  rewrite matchHere_star, <- !app_comm_cons.
  apply greedy_run; [assumption | now apply word_not_space | cbv beta].
  rewrite matchHere_plus by assumption.
  apply greedy_run; [assumption | reflexivity | cbv beta].
  rewrite matchHere_once, matchHere_plus by assumption.
  apply greedy_run; [assumption | reflexivity | cbv beta].
  rewrite matchHere_once. reflexivity.
Qed.

Lemma regexMatch_call ws ident args rest :
  forallb isWhiteSpace ws = true ->
  ident <> [] -> forallb isWordChar ident = true ->
  args <> [] -> forallb (fun c => negb (c =? 41)%N) args = true ->
  regexMatch actionPattern
    (ACTION ++ ws ++ ident ++ 40%N :: args ++ 41%N :: rest)
  = Some [ident; args].
Proof.
  intros. apply regexMatch_here. rewrite matchHere_keyword.
  now apply matchHere_call.
Qed.

Lemma matchHere_once_inv c ps s caps r :
  matchHere (exactly c :: ps) s caps = Some r ->
  exists s', s = c :: s' /\ matchHere ps s' caps = Some r.
Proof.
  simpl. destruct s as [|x s]; [discriminate|].
  destruct (N.eqb_spec c x); [subst x | discriminate].
  intros H. now exists s.
Qed.

Lemma matchHere_star_inv p ps s caps r :
  matchHere (mkPiece p ZeroOrMore false :: ps) s caps = Some r ->
  exists run rest,
    s = run ++ rest /\ forallb p run = true
    /\ matchHere ps rest caps = Some r.
Proof.
  rewrite matchHere_star. intros H.
  destruct (greedy_sound _ _ _ _ _ _ H) as (run & rest & E & Hrun & Hk).
  now exists run, rest.
Qed.

Lemma matchHere_plus_inv p ps s caps r :
  matchHere (mkPiece p OneOrMore true :: ps) s caps = Some r ->
  exists run rest,
    s = run ++ rest /\ run <> [] /\ forallb p run = true
    /\ matchHere ps rest (caps ++ [run]) = Some r.
Proof.
  simpl. destruct s as [|c s]; [discriminate|].
  destruct (p c) eqn:Hc; [|discriminate].
  intros H.
  destruct (greedy_sound _ _ _ _ _ _ H) as (run & rest & E & Hrun & Hk).
  exists (c :: run), rest. simpl. rewrite Hc, Hrun, E.
  repeat split; auto. discriminate.
Qed.

Lemma matchHere_keyword_inv s caps r :
  matchHere actionPattern s caps = Some r ->
  exists tail, s = ACTION ++ tail /\ matchHere callPieces tail caps = Some r.
Proof.
  change actionPattern
    with (exactly 65 :: exactly 67 :: exactly 84 :: exactly 73 :: exactly 79
          :: exactly 78 :: exactly 58 :: callPieces).
  intros H.
  repeat (apply matchHere_once_inv in H; destruct H as (? & -> & H)).
  eexists. split; [reflexivity | exact H].
Qed.

Lemma matchHere_call_inv tail caps :
  matchHere callPieces tail [] = Some caps ->
  exists ws ident args rest,
    tail = ws ++ ident ++ 40%N :: args ++ 41%N :: rest
    /\ forallb isWhiteSpace ws = true
    /\ ident <> [] /\ forallb isWordChar ident = true
    /\ args <> [] /\ forallb (fun c => negb (c =? 41)%N) args = true
    /\ caps = [ident; args].
Proof.
  unfold callPieces. intros H.
  apply matchHere_star_inv in H as (ws & t1 & -> & Hws & H).
  apply matchHere_plus_inv in H as (ident & t2 & -> & Hi & Hident & H).
  apply matchHere_once_inv in H as (t3 & -> & H).
  apply matchHere_plus_inv in H as (args & t4 & -> & Ha & Hargs & H).
  apply matchHere_once_inv in H as (rest & -> & H).
  simpl in H. inversion H; subst caps.
  exists ws, ident, args, rest. repeat split; auto.
Qed.

(** A match of the pattern is a call somewhere in the text, and its groups
    are the identifier and the argument text of that call. *)
Lemma regexMatch_sound s : forall caps,
  regexMatch actionPattern s = Some caps ->
  exists pre ws ident args rest,
    callPattern s pre ws ident args rest /\ caps = [ident; args].
Proof.
  assert (Hhere : forall s caps,
             matchHere actionPattern s [] = Some caps ->
             exists ws ident args rest,
               callPattern s [] ws ident args rest /\ caps = [ident; args]).
  { intros s0 caps H.
    apply matchHere_keyword_inv in H as (tail & -> & H).
    apply matchHere_call_inv in H
      as (ws & ident & args & rest & -> & Hws & Hi & Hident & Ha & Hargs & E).
    exists ws, ident, args, rest. unfold callPattern. simpl app.
    repeat split; auto. }
  induction s as [|c s IH]; intros caps H; rewrite regexMatch_unfold in H.
  - vm_compute in H. discriminate.
  - destruct (matchHere actionPattern (c :: s) []) eqn:E.
    + inversion H; subst.
      destruct (Hhere _ _ E) as (ws & ident & args & rest & Hc & Ec).
      now exists [], ws, ident, args, rest.
    + destruct (IH _ H) as (pre & ws & ident & args & rest & Hc & Ec).
      exists (c :: pre), ws, ident, args, rest. split; [|exact Ec].
      destruct Hc as (Es & Hrest). split; [|exact Hrest].
      simpl. now rewrite Es.
Qed.

(** A call anywhere in the text makes the pattern match (the leftmost call
    is the one found). *)
Lemma regexMatch_complete s pre ws ident args rest :
  callPattern s pre ws ident args rest ->
  exists caps, regexMatch actionPattern s = Some caps.
Proof.
  intros (E & Hws & Hi & Hident & Ha & Hargs). subst s.
  induction pre as [|c pre IH]; rewrite regexMatch_unfold.
  - rewrite app_nil_l, matchHere_keyword, matchHere_call by assumption.
    eauto.
  - destruct (matchHere actionPattern _ []) as [caps|]; [eauto|].
    simpl app. exact IH.
Qed.

(** ** The activity mapper: actions *)

Lemma parseToolName_registered t : parseToolName (toolNameString t) = Some t.
Proof. destruct t; reflexivity. Qed.

Lemma parseToolName_unregistered ident :
  (forall t, ident <> toolNameString t) -> parseToolName ident = None.
Proof.
  intros H. unfold parseToolName.
  assert (Hne : forall t, jsstring_eqb ident (toolNameString t) = false).
  { intros t. apply not_true_is_false. intros E.
    apply jsstring_eqb_eq in E. now apply H in E. }
  cbn [find]. now rewrite !Hne.
Qed.

Lemma mappedType_action response :
  startsWith ACTION response = true -> mappedType response = Action.
Proof.
  intros H. rewrite (startsWith_inv _ _ H). reflexivity.
Qed.

(** C6: a completion that is the ACTION: keyword, white space, an identifier
    and a parenthesized argument text maps to the action of the tool the
    identifier names, with the argument text as it stands for parameter (and
    no result); when the identifier names none of the three tools the mapper
    throws "Invalid tool name: <identifier>". *)
Theorem mapper_action_call (U : AgentActivityType -> thrown)
    response ws ident args rest :
  callPattern response [] ws ident args rest ->
  (forall t, ident = toolNameString t ->
     mapResponseToLinearActivityContent U response
     = Return (ActionContent t (Some args) None))
  /\ ((forall t, ident <> toolNameString t) ->
     mapResponseToLinearActivityContent U response
     = Throw (JsError (lit "Invalid tool name: " ++ ident))).
Proof.
  intros (E & Hws & Hi & Hident & Ha & Hargs).
  rewrite app_nil_l in E. subst response.
  assert (Hm : mapResponseToLinearActivityContent U
                 (ACTION ++ ws ++ ident ++ 40%N :: args ++ 41%N :: rest)
               = match parseToolName ident with
                 | None => Throw (JsError (lit "Invalid tool name: " ++ ident))
                 | Some toolName =>
                     Return (ActionContent toolName (orNull args) None)
                 end).
  { unfold mapResponseToLinearActivityContent.
    rewrite mappedType_action by apply startsWith_app.
    now rewrite regexMatch_call. }
  rewrite Hm. split.
  - intros t ->. rewrite parseToolName_registered.
    destruct args; [congruence | reflexivity].
  - intros Hnone. now rewrite parseToolName_unregistered.
Qed.

Lemma mapper_action_call_witness :
  mapResponseToLinearActivityContent sampleUnreachable
    (lit "ACTION: getWeather(40.0, -74.0)")
  = Return (ActionContent GetWeather (Some (lit "40.0, -74.0")) None).
Proof.
  apply (mapper_action_call sampleUnreachable
           (lit "ACTION: getWeather(40.0, -74.0)")
           (lit " ") (lit "getWeather") (lit "40.0, -74.0") []).
  - unfold callPattern. repeat split; try reflexivity; discriminate.
  - reflexivity.
Defined.

(** C9: a completion that starts with ACTION: and holds no call in the shape
    of the pattern makes the mapper throw (the unreachable-case error of the
    [default] branch); no activity is returned. *)
Theorem mapper_action_without_call (U : AgentActivityType -> thrown) response :
  startsWith ACTION response = true ->
  (forall pre ws ident args rest,
     ~ callPattern response pre ws ident args rest) ->
  mapResponseToLinearActivityContent U response = Throw (U Action).
Proof.
  intros Hstart Hnone. unfold mapResponseToLinearActivityContent.
  rewrite (mappedType_action _ Hstart).
  destruct (regexMatch actionPattern response) as [caps|] eqn:E;
    [|reflexivity].
  apply regexMatch_sound in E as (pre & ws & ident & args & rest & Hc & _).
  now apply Hnone in Hc.
Qed.

Lemma mapper_action_without_call_witness :
  mapResponseToLinearActivityContent sampleUnreachable
    (lit "ACTION: getWeather()")
  = Throw (sampleUnreachable Action).
Proof.
  apply (mapper_action_without_call sampleUnreachable
           (lit "ACTION: getWeather()")).
  - reflexivity.
  - intros pre ws ident args rest Hc.
    apply regexMatch_complete in Hc as (caps & Hcaps).
    vm_compute in Hcaps. discriminate Hcaps.
Defined.

(** ** The get-weather executor *)

Section ToolProperties.
Variable number : Type.
Variable StringToNumber : jsstring -> number.
Variable value : Type.
Variable JSON_stringify : value -> jsstring.
Variable getCoordinates : nat -> jsstring -> result value.
Variable getWeather : nat -> number -> number -> result value.
Variable getTime : nat -> number -> number -> result jsstring.

Local Abbreviation execute :=
  (executeAction StringToNumber JSON_stringify getCoordinates getWeather
     getTime).

Lemma parseFloat_numeric token :
  parseFloat StringToNumber (trim token)
  = option_map StringToNumber (decimalPrefix (trimStart (trim token))).
Proof. reflexivity. Qed.

(** An absent or empty parameter is refused before the tool is looked
    at. *)
Lemma executeAction_missing tick action parameter :
  falsy parameter = true ->
  execute tick action parameter = Throw missingParameter.
Proof. intros H. unfold executeAction. now rewrite H. Qed.

(** C7, as amended: on a non-empty parameter the get-weather executor
    throws the invalid-parameter error when the parameter has fewer than
    two comma-separated tokens or one of its first two tokens is not
    numeric; otherwise it looks the weather up at the numbers of the first
    two tokens and returns the serialized answer (or throws what the
    lookup throws). The empty parameter raises the missing-parameter
    error. *)
Theorem getWeather_parameter tick parameter :
  (parameter = [] ->
     execute tick GetWeather (Some parameter) = Throw missingParameter)
  /\ (parameter <> [] -> firstTwoNumeric parameter = false ->
     execute tick GetWeather (Some parameter)
     = Throw invalidWeatherParameter)
  /\ (parameter <> [] -> firstTwoNumeric parameter = true ->
     exists t0 t1 more l0 l1,
       split 44 parameter = t0 :: t1 :: more
       /\ decimalPrefix (trimStart (trim t0)) = Some l0
       /\ decimalPrefix (trimStart (trim t1)) = Some l1
       /\ execute tick GetWeather (Some parameter)
          = bindResult
              (getWeather tick (StringToNumber l0) (StringToNumber l1))
              (fun v => Return (JSON_stringify v))).
Proof.
  split; [intros ->; reflexivity|].
  assert (Hex : parameter <> [] ->
            execute tick GetWeather (Some parameter)
            = match parseParts StringToNumber parameter with
              | Some lat :: Some long :: _ =>
                  bindResult (getWeather tick lat long)
                    (fun v => Return (JSON_stringify v))
              | _ => Throw invalidWeatherParameter
              end).
  { intros Hne. destruct parameter; [congruence | reflexivity]. }
  unfold firstTwoNumeric, numeric.
  split; intros Hne Hnum; rewrite (Hex Hne); unfold parseParts.
  - destruct (split 44 parameter) as [|t0 [|t1 more]];
      cbn [List.map]; rewrite ?parseFloat_numeric.
    + reflexivity.
    + now destruct (decimalPrefix (trimStart (trim t0))).
    + destruct (decimalPrefix (trimStart (trim t0))); [|reflexivity].
      destruct (decimalPrefix (trimStart (trim t1))); [|reflexivity].
      discriminate Hnum.
  - destruct (split 44 parameter) as [|t0 [|t1 more]]; try discriminate.
    destruct (decimalPrefix (trimStart (trim t0))) as [l0|] eqn:E0;
      [|discriminate].
    destruct (decimalPrefix (trimStart (trim t1))) as [l1|] eqn:E1;
      [|discriminate].
    exists t0, t1, more, l0, l1. repeat split.
    + exact E0.
    + exact E1.
    + cbn [List.map]. rewrite !parseFloat_numeric, E0, E1. reflexivity.
Qed.
End ToolProperties.

Lemma getWeather_parameter_witness :
  sampleExecute 3 GetWeather (Some (lit "abc")) = Throw invalidWeatherParameter
  /\ sampleExecute 3 GetWeather (Some (lit "40.0,-74.0"))
     = Return (lit "{temperature:21}").
Proof.
  split.
  - apply (getWeather_parameter jsstring (fun l => l) jsstring (fun v => v)
             sampleCoordinates sampleWeather sampleTime 3 (lit "abc"));
      [discriminate | reflexivity].
  - destruct (getWeather_parameter jsstring (fun l => l) jsstring
                (fun v => v) sampleCoordinates sampleWeather sampleTime 3
                (lit "40.0,-74.0")) as (_ & _ & H).
    destruct H as (t0 & t1 & more & l0 & l1 & _ & _ & _ & H);
      [discriminate | reflexivity | exact H].
Defined.

(** C7, as written, fails on "1,abc,2": two of its tokens are numeric, yet
    the second token is not and the executor throws. *)
Lemma weatherClaim_fails : ~ weatherClaim sampleExecute.
Proof.
  intros claim.
  destruct (claim 0 (lit "1,abc,2")) as [H _].
  assert (E : numericTokens (lit "1,abc,2") = 2) by reflexivity.
  rewrite E in H. specialize (H eq_refl). lia.
Qed.

(** It fails on the empty parameter as well, which is refused as missing. *)
Lemma weatherClaim_fails_on_empty :
  numericTokens [] < 2
  /\ sampleExecute 0 GetWeather (Some []) = Throw missingParameter.
Proof. split; [vm_compute; lia | reflexivity]. Qed.

(** ** The seed of the conversation *)

Lemma turns_of_filtered (l : list LoggedActivity) :
  List.map toMessage (filter (fun a => isPrompt a || isResponse a) l)
  = flat_map turnOf l.
Proof.
  induction l as [|a l IH]; [reflexivity|].
  destruct a as [b|[]]; simpl; now rewrite IH.
Qed.

Section HistoryProperties.
Variable UnreachableCaseError : AgentActivityType -> thrown.
Variable number : Type.
Variable StringToNumber : jsstring -> number.
Variable value : Type.
Variable JSON_stringify : value -> jsstring.
Variable getCoordinates : nat -> jsstring -> result value.
Variable getWeather : nat -> number -> number -> result value.
Variable getTime : nat -> number -> number -> result jsstring.
Variable createCompletion :
  nat -> list ChatMessage -> result (option jsstring).
Variable createActivity : list event -> Content -> result unit.
Variable activities : option jsstring -> Connection.
Variable prompt : jsstring.

Local Abbreviation loop :=
  (agentLoop UnreachableCaseError StringToNumber JSON_stringify
     getCoordinates getWeather getTime createCompletion createActivity).

(** The pagination loop ends, and has fetched the pages that follow. *)
Lemma fetchRemaining_follows c log n :
  follows activities c log n ->
  forall fuel, n <= fuel -> fetchRemaining activities fuel c = Some log.
Proof.
  induction 1 as [c Hlast | c cursor log n Hnext Hcur Hne _ IH];
    intros fuel Hfuel.
  - destruct fuel; simpl; now rewrite Hlast.
  - destruct fuel as [|fuel]; [lia|].
    simpl. rewrite Hnext, Hcur.
    destruct cursor as [|x cursor]; [congruence|].
    simpl. rewrite IH by lia. reflexivity.
Qed.

(** C8: when the tracker serves the log of the session in pages, newest
    activity first, the prior turns are the prompts and responses of the
    log, oldest first, as user and assistant messages; and the loop runs
    on the system instruction, then the user prompt when it is not empty,
    then these turns. *)
Theorem history_seed fuel userPrompt log n :
  follows activities (activities None) log n ->
  n <= fuel ->
  generateMessagesFromPreviousActivities activities fuel
  = Some (flat_map turnOf (rev (nodes (activities None) ++ log)))
  /\ handleUserPrompt UnreachableCaseError StringToNumber JSON_stringify
       getCoordinates getWeather getTime createCompletion createActivity
       activities prompt fuel userPrompt
     = Some (loop (seededHistory prompt userPrompt
                     (nodes (activities None) ++ log))).
Proof.
  intros Hlog Hfuel.
  assert (Hgen : generateMessagesFromPreviousActivities activities fuel
                 = Some (flat_map turnOf
                           (rev (nodes (activities None) ++ log)))).
  { unfold generateMessagesFromPreviousActivities, fetchAllActivities.
    rewrite (fetchRemaining_follows _ _ _ Hlog fuel Hfuel). simpl.
    now rewrite <- filter_rev, turns_of_filtered. }
  split; [exact Hgen|].
  unfold handleUserPrompt. rewrite Hgen. simpl. f_equal. f_equal.
  unfold initialMessages, seededHistory.
  now destruct userPrompt.
Qed.
End HistoryProperties.

Lemma history_seed_witness :
  generateMessagesFromPreviousActivities samplePages 1
  = Some [ mkMessage user (lit "Weather in Paris?");
           mkMessage assistant (lit "Sunny") ]
  /\ handleUserPrompt sampleUnreachable (fun l => l) (fun v => v)
       sampleCoordinates sampleWeather sampleTime alwaysThinking accepting
       samplePages (lit "You are a weather bot.") 1 (lit "And in Rome?")
     = Some (sampleLoop alwaysThinking
               [ mkMessage system (lit "You are a weather bot.");
                 mkMessage user (lit "And in Rome?");
                 mkMessage user (lit "Weather in Paris?");
                 mkMessage assistant (lit "Sunny") ]).
Proof.
  apply (history_seed sampleUnreachable jsstring (fun l => l) jsstring
           (fun v => v) sampleCoordinates sampleWeather sampleTime
           alwaysThinking accepting samplePages
           (lit "You are a weather bot.") 1
           (lit "And in Rome?")
           (nodes (samplePages (Some (lit "c1"))) ++ []) 1).
  - apply follows_next; [reflexivity | reflexivity | discriminate |].
    apply follows_last. reflexivity.
  - lia.
Defined.

(** ** The agent loop: one turn *)

Ltac run_try :=
  unfold tryBlock, catchBlock, bind, callOpenAI, runTool, liftResult,
    createAgentActivity, sleep, push, complete, emit;
  simpl.

Lemma persisted_app tr1 tr2 :
  persisted (tr1 ++ tr2) = persisted tr1 ++ persisted tr2.
Proof. unfold persisted. now rewrite flat_map_app. Qed.

Lemma terminalCount_app cs1 cs2 :
  terminalCount (cs1 ++ cs2) = terminalCount cs1 + terminalCount cs2.
Proof. unfold terminalCount. now rewrite filter_app, length_app. Qed.

Lemma errorCount_app cs1 cs2 :
  errorCount (cs1 ++ cs2) = errorCount cs1 + errorCount cs2.
Proof. unfold errorCount. now rewrite filter_app, length_app. Qed.

Lemma errorCount_le_terminalCount cs : errorCount cs <= terminalCount cs.
Proof.
  unfold errorCount, terminalCount.
  induction cs as [|c cs IH]; simpl; [lia|].
  destruct c; simpl; lia.
Qed.

Lemma count_app p tr1 tr2 : count p (tr1 ++ tr2) = count p tr1 + count p tr2.
Proof. unfold count. now rewrite filter_app, length_app. Qed.

(** The mapper never fills in the result of an action, and its parameter is
    never the empty string. *)
Lemma mapper_action_inv (U : AgentActivityType -> thrown) response t p r :
  mapResponseToLinearActivityContent U response = Return (ActionContent t p r)
  -> r = None /\ p <> Some [].
Proof.
  unfold mapResponseToLinearActivityContent.
  destruct (mappedType response); try discriminate.
  destruct (regexMatch actionPattern response) as [[|x [|y [|z caps]]]|];
    try discriminate.
  destruct (parseToolName x); [|discriminate].
  intros H. inversion H; subst. split; [reflexivity|].
  destruct y; discriminate.
Qed.

Section TurnProperties.
Variable UnreachableCaseError : AgentActivityType -> thrown.
Variable number : Type.
Variable StringToNumber : jsstring -> number.
Variable value : Type.
Variable JSON_stringify : value -> jsstring.
Variable getCoordinates : nat -> jsstring -> result value.
Variable getWeather : nat -> number -> number -> result value.
Variable getTime : nat -> number -> number -> result jsstring.
Variable createCompletion :
  nat -> list ChatMessage -> result (option jsstring).
Variable createActivity : list event -> Content -> result unit.

Local Abbreviation mapper :=
  (mapResponseToLinearActivityContent UnreachableCaseError).
Local Abbreviation execute :=
  (executeAction StringToNumber JSON_stringify getCoordinates getWeather
     getTime).
Local Abbreviation text := (completionText createCompletion).
Local Abbreviation try :=
  (tryBlock UnreachableCaseError StringToNumber JSON_stringify
     getCoordinates getWeather getTime createCompletion createActivity).
Local Abbreviation catch := (catchBlock createActivity).
Local Abbreviation turn :=
  (iteration UnreachableCaseError StringToNumber JSON_stringify
     getCoordinates getWeather getTime createCompletion createActivity).
Local Abbreviation tries :=
  (tried UnreachableCaseError StringToNumber JSON_stringify getCoordinates
     getWeather getTime createCompletion createActivity).
Local Abbreviation turns :=
  (turned UnreachableCaseError StringToNumber JSON_stringify getCoordinates
     getWeather getTime createCompletion createActivity).

(** A tool that returns was given a parameter. *)
Lemma execute_returns tick tool p toolResult :
  execute tick tool p = Return toolResult -> p <> Some [] ->
  falsy p = false.
Proof.
  intros He Hp. destruct p as [[|x p]|].
  - now elim Hp.
  - reflexivity.
  - unfold executeAction in He. discriminate He.
Qed.

(** The [try] block follows one of the paths of [tried]. *)
Lemma try_tried st : tries st (fst (try st)) (snd (try st)).
Proof.
  destruct (text (iterations st) (messages st)) as [response|e] eqn:Ht.
  2:{ run_try. rewrite Ht. now apply tried_completion_throws. }
  destruct (mapper response) as [c|e] eqn:Hm.
  2:{ run_try. rewrite Ht, Hm. now apply tried_mapper_throws with response. }
  destruct (createActivity
              (trace st ++ [Completion (iterations st) (messages st)]) c)
    as [[]|e] eqn:Hw.
  2:{ run_try. rewrite Ht, Hm.
      destruct c; simpl; rewrite Hw; simpl; rewrite <- ?app_assoc;
        now apply tried_write_rejected with response. }
  destruct c as [b|tool p r0|b|b|b].
  - run_try. rewrite Ht, Hm. simpl. rewrite Hw. simpl.
    rewrite <- ?app_assoc. now apply tried_thought.
  - destruct (mapper_action_inv _ _ _ _ _ Hm) as [-> Hp].
    destruct (execute (iterations st) tool p) as [toolResult|e] eqn:He.
    2:{ run_try. rewrite Ht, Hm. simpl. rewrite Hw. simpl. rewrite He.
        rewrite <- ?app_assoc. now apply tried_tool_throws with response. }
    pose proof (execute_returns _ _ _ _ He Hp) as Hf.
    destruct (createActivity
                (trace st ++ [ Completion (iterations st) (messages st);
                               Activity (ActionContent tool p None);
                               ToolCall (iterations st) tool p ])
                (ActionContent tool p (Some toolResult)))
      as [[]|e] eqn:Hw2.
    + run_try. rewrite Ht, Hm. simpl. rewrite Hw. simpl. rewrite He. simpl.
      rewrite Hf, <- ?app_assoc. simpl. rewrite Hw2. simpl.
      rewrite <- ?app_assoc. now apply tried_action.
    + run_try. rewrite Ht, Hm. simpl. rewrite Hw. simpl. rewrite He. simpl.
      rewrite Hf, <- ?app_assoc. simpl. rewrite Hw2. simpl.
      rewrite <- ?app_assoc. now apply tried_outcome_rejected.
  - run_try. rewrite Ht, Hm. simpl. rewrite Hw. simpl.
    rewrite <- ?app_assoc. now apply tried_terminal with response.
  - run_try. rewrite Ht, Hm. simpl. rewrite Hw. simpl.
    rewrite <- ?app_assoc. now apply tried_terminal with response.
  - run_try. rewrite Ht, Hm. simpl. rewrite Hw. simpl.
    rewrite <- ?app_assoc. now apply tried_terminal with response.
Qed.

Lemma turn_unfold st :
  turn st
  = match try (entered st) with
    | (Return _, st') => st'
    | (Throw error, st') =>
        match catch error st' with
        | (Return _, st'') => st''
        | (Throw escaping, st'') => leave escaping st''
        end
    end.
Proof. reflexivity. Qed.

(** The [catch] block: the write of the error is accepted and the task is
    complete, or it is refused and the exception of the refusal is
    thrown. *)
Lemma catch_unfold e st :
  catch e st
  = match createActivity (trace st) (agentError e) with
    | Return _ =>
        (Return tt,
         mkState (messages st) true (iterations st)
           (trace st ++ [Activity (agentError e)]) (escaped st))
    | Throw escaping =>
        (Throw escaping,
         mkState (messages st) (taskComplete st) (iterations st)
           (trace st ++ [Rejected (agentError e)]) (escaped st))
    end.
Proof.
  unfold catchBlock, bind, createAgentActivity, complete, emit, agentError.
  now destruct (createActivity (trace st)
                  (ErrorContent (lit "Agent error: " ++ messageOf e))).
Qed.

(** Every turn is of one of the shapes of [turned]. *)
Lemma turn_turned st : turns st (turn st).
Proof.
  rewrite turn_unfold. pose proof (try_tried (entered st)) as H.
  destruct (try (entered st)) as [[[]|e] st1]; cbn [fst snd] in H.
  - now apply turned_done.
  - rewrite catch_unfold.
    destruct (createActivity (trace st1) (agentError e)) as [[]|escaping]
      eqn:Hw.
    + now apply turned_caught.
    + unfold leave. cbn [messages taskComplete iterations trace escaped].
      now apply turned_escaped.
Qed.

(** The [try] block, on the paths that persist what the model asked
    for. *)
Lemma try_thought st response b :
  text (iterations st) (messages st) = Return response ->
  mapper response = Return (ThoughtContent b) ->
  createActivity (trace st ++ [Completion (iterations st) (messages st)])
    (ThoughtContent b) = Return tt ->
  try st
  = (Return tt,
     mkState (messages st ++ [mkMessage assistant response])
       (taskComplete st) (iterations st)
       (trace st ++ [ Completion (iterations st) (messages st);
                      Activity (ThoughtContent b); Delay ])
       (escaped st)).
Proof.
  intros Ht Hm Hw. run_try. rewrite Ht, Hm. simpl. rewrite Hw. simpl.
  now rewrite <- ?app_assoc.
Qed.

Lemma try_terminal st response c :
  text (iterations st) (messages st) = Return response ->
  mapper response = Return c ->
  isTerminal c = true ->
  createActivity (trace st ++ [Completion (iterations st) (messages st)]) c
  = Return tt ->
  try st
  = (Return tt,
     mkState (messages st) true (iterations st)
       (trace st ++ [ Completion (iterations st) (messages st);
                      Activity c ])
       (escaped st)).
Proof.
  intros Ht Hm Hc Hw. run_try. rewrite Ht, Hm.
  destruct c; try discriminate; simpl; rewrite Hw; simpl;
    now rewrite <- !app_assoc.
Qed.

Lemma try_tool_throws st response tool p r e :
  text (iterations st) (messages st) = Return response ->
  mapper response = Return (ActionContent tool p r) ->
  createActivity (trace st ++ [Completion (iterations st) (messages st)])
    (ActionContent tool p r) = Return tt ->
  execute (iterations st) tool p = Throw e ->
  try st
  = (Throw e,
     mkState (messages st) (taskComplete st) (iterations st)
       (trace st ++ [ Completion (iterations st) (messages st);
                      Activity (ActionContent tool p r);
                      ToolCall (iterations st) tool p ])
       (escaped st)).
Proof.
  intros Ht Hm Hw He. run_try.
  rewrite Ht, Hm. simpl. rewrite Hw. simpl. rewrite He.
  now rewrite <- !app_assoc.
Qed.

Lemma try_tool_returns st response tool p r toolResult :
  text (iterations st) (messages st) = Return response ->
  mapper response = Return (ActionContent tool p r) ->
  createActivity (trace st ++ [Completion (iterations st) (messages st)])
    (ActionContent tool p r) = Return tt ->
  execute (iterations st) tool p = Return toolResult ->
  createActivity
    (trace st ++ [ Completion (iterations st) (messages st);
                   Activity (ActionContent tool p r);
                   ToolCall (iterations st) tool p ])
    (ActionContent tool p (Some toolResult)) = Return tt ->
  try st
  = (Return tt,
     mkState
       (messages st
        ++ [ mkMessage assistant response;
             mkMessage user (lit "Tool result: " ++ toolResult) ])
       (taskComplete st) (iterations st)
       (trace st ++ [ Completion (iterations st) (messages st);
                      Activity (ActionContent tool p r);
                      ToolCall (iterations st) tool p;
                      Activity (ActionContent tool p (Some toolResult));
                      Delay ])
       (escaped st)).
Proof.
  intros Ht Hm Hw He Hw2.
  destruct (mapper_action_inv _ _ _ _ _ Hm) as [-> Hp].
  run_try. rewrite Ht, Hm. simpl. rewrite Hw. simpl. rewrite He. simpl.
  rewrite (execute_returns _ _ _ _ He Hp), <- ?app_assoc. simpl.
  rewrite Hw2. simpl. now rewrite <- ?app_assoc.
Qed.

(** The same turn when the tracker refuses the outcome record: the
    conversation has the two messages, and the refusal is what the [try]
    block throws. *)
Lemma try_outcome_rejected st response tool p r toolResult e :
  text (iterations st) (messages st) = Return response ->
  mapper response = Return (ActionContent tool p r) ->
  createActivity (trace st ++ [Completion (iterations st) (messages st)])
    (ActionContent tool p r) = Return tt ->
  execute (iterations st) tool p = Return toolResult ->
  createActivity
    (trace st ++ [ Completion (iterations st) (messages st);
                   Activity (ActionContent tool p r);
                   ToolCall (iterations st) tool p ])
    (ActionContent tool p (Some toolResult)) = Throw e ->
  try st
  = (Throw e,
     mkState
       (messages st
        ++ [ mkMessage assistant response;
             mkMessage user (lit "Tool result: " ++ toolResult) ])
       (taskComplete st) (iterations st)
       (trace st ++ [ Completion (iterations st) (messages st);
                      Activity (ActionContent tool p r);
                      ToolCall (iterations st) tool p;
                      Rejected (ActionContent tool p (Some toolResult)) ])
       (escaped st)).
Proof.
  intros Ht Hm Hw He Hw2.
  destruct (mapper_action_inv _ _ _ _ _ Hm) as [-> Hp].
  run_try. rewrite Ht, Hm. simpl. rewrite Hw. simpl. rewrite He. simpl.
  rewrite (execute_returns _ _ _ _ He Hp), <- ?app_assoc. simpl.
  rewrite Hw2. simpl. now rewrite <- ?app_assoc.
Qed.

(** C3: a turn whose completion maps to an action, whose tool returns, and
    whose two writes the tracker accepts, persists two activities, the
    intent (tool, raw parameter, no result) and then the outcome (same
    tool, same parameter, the tool's result), and appends the model's text
    and "Tool result: <result>" to the conversation. *)
Theorem action_turn st response tool parameter result0 toolResult :
  text (S (iterations st)) (messages st) = Return response ->
  mapper response = Return (ActionContent tool parameter result0) ->
  createActivity
    (trace st ++ [Completion (S (iterations st)) (messages st)])
    (ActionContent tool parameter result0) = Return tt ->
  execute (S (iterations st)) tool parameter = Return toolResult ->
  createActivity
    (trace st ++ [ Completion (S (iterations st)) (messages st);
                   Activity (ActionContent tool parameter result0);
                   ToolCall (S (iterations st)) tool parameter ])
    (ActionContent tool parameter (Some toolResult)) = Return tt ->
  persisted (trace (turn st))
  = persisted (trace st)
    ++ [ ActionContent tool parameter None;
         ActionContent tool parameter (Some toolResult) ]
  /\ messages (turn st)
     = messages st
       ++ [ mkMessage assistant response;
            mkMessage user (lit "Tool result: " ++ toolResult) ]
  /\ taskComplete (turn st) = taskComplete st
  /\ iterations (turn st) = S (iterations st)
  /\ escaped (turn st) = escaped st.
Proof.
  intros Ht Hm Hw He Hw2. rewrite turn_unfold.
  rewrite (try_tool_returns (entered st) response tool parameter result0
             toolResult Ht Hm Hw He Hw2).
  destruct (mapper_action_inv _ _ _ _ _ Hm) as [-> _].
  simpl. rewrite persisted_app. auto.
Qed.

(** What a turn does to the state, whatever the path. *)
Lemma turned_effects st st' :
  turns st st' ->
  exists evs,
    trace st' = trace st ++ evs
    /\ iterations st' = S (iterations st)
    /\ List.length (filter isCompletion evs) = 1
    /\ (taskComplete st = false ->
        terminalCount (persisted evs)
        = if taskComplete st' then 1 else 0).
Proof.
  intros Hturn.
  inversion Hturn as [st1 Htry | e st1 Htry Hw | e st1 escaping Htry Hw];
    inversion Htry; subst;
    cbn [entered messages taskComplete iterations trace escaped];
    try match goal with
        | H : isTerminal ?c = true |- _ => destruct c; try discriminate H
        end;
    (eexists; split; [rewrite <- ?app_assoc; reflexivity|]);
    (split; [reflexivity|]); (split; [reflexivity|]);
    intros Hfalse; rewrite ?Hfalse; reflexivity.
Qed.

Lemma turn_effects st :
  exists evs,
    trace (turn st) = trace st ++ evs
    /\ iterations (turn st) = S (iterations st)
    /\ List.length (filter isCompletion evs) = 1
    /\ (taskComplete st = false ->
        terminalCount (persisted evs)
        = if taskComplete (turn st) then 1 else 0).
Proof. exact (turned_effects st _ (turn_turned st)). Qed.

(** ** The agent loop: the run *)

Local Abbreviation run :=
  (while UnreachableCaseError StringToNumber JSON_stringify getCoordinates
     getWeather getTime createCompletion createActivity).
Local Abbreviation limit := (afterLoop createActivity).
Local Abbreviation loop :=
  (agentLoop UnreachableCaseError StringToNumber JSON_stringify
     getCoordinates getWeather getTime createCompletion createActivity).

Lemma while_done fuel st : running st = false -> run fuel st = st.
Proof. intros H. destruct fuel; simpl; [reflexivity | now rewrite H]. Qed.

Lemma loopCondition_true st :
  loopCondition st = true ->
  taskComplete st = false /\ iterations st < MAX_ITERATIONS.
Proof.
  unfold loopCondition. intros H. apply andb_true_iff in H as [Hc Hi].
  apply negb_true_iff in Hc. apply Nat.ltb_lt in Hi. auto.
Qed.

Lemma running_true st :
  running st = true ->
  escaped st = None /\ taskComplete st = false
  /\ iterations st < MAX_ITERATIONS.
Proof.
  unfold running. destruct (escaped st); [discriminate|].
  intros H. split; [reflexivity | now apply loopCondition_true].
Qed.

Lemma running_ended st : running st = true -> ended st = false.
Proof.
  intros H. apply running_true in H as (Hesc & Htc & _).
  unfold ended. now rewrite Hesc, Htc.
Qed.

(** The loop has stopped: an exception has left the function, the task is
    complete, or the budget is spent. *)
Lemma running_false st :
  running st = false ->
  (exists e, escaped st = Some e)
  \/ (escaped st = None /\ taskComplete st = true)
  \/ (escaped st = None /\ taskComplete st = false
      /\ MAX_ITERATIONS <= iterations st).
Proof.
  unfold running, loopCondition.
  destruct (escaped st) as [e|]; [now left; exists e|].
  destruct (taskComplete st); [now right; left|].
  cbn [negb andb]. intros H. apply Nat.ltb_ge in H. now right; right.
Qed.

Lemma turn_consistent st :
  running st = true -> consistent st -> consistent (turn st).
Proof.
  intros Hcond (Hterm & Hcalls & Hbound).
  apply running_true in Hcond as (_ & Hfalse & Hlt).
  destruct (turn_effects st) as (evs & Etr & Eit & Ecount & Hc).
  unfold consistent. rewrite Etr, Eit.
  rewrite persisted_app, terminalCount_app, filter_app, length_app.
  rewrite Hterm, Hfalse, Hcalls, Ecount, (Hc Hfalse).
  repeat split; lia.
Qed.

Lemma while_consistent fuel : forall st,
  consistent st -> consistent (run fuel st).
Proof.
  induction fuel as [|fuel IH]; intros st Hst; simpl; [exact Hst|].
  destruct (running st) eqn:Hcond; [|exact Hst].
  apply IH. now apply turn_consistent.
Qed.

Lemma spent_not_running st :
  MAX_ITERATIONS <= iterations st -> running st = false.
Proof.
  intros H. unfold running, loopCondition.
  destruct (escaped st); [reflexivity|].
  apply andb_false_iff. right. apply Nat.ltb_ge. exact H.
Qed.

(** With [MAX_ITERATIONS] turns of fuel the loop stops on its own. *)
Lemma while_exit fuel : forall st,
  MAX_ITERATIONS <= iterations st + fuel ->
  running (run fuel st) = false.
Proof.
  induction fuel as [|fuel IH]; intros st Hfuel; simpl.
  - apply spent_not_running. lia.
  - destruct (running st) eqn:Hcond; [|exact Hcond].
    apply IH. destruct (turn_effects st) as (evs & _ & Eit & _).
    rewrite Eit. lia.
Qed.

(** More fuel than that changes nothing. *)
Lemma while_fuel fuel : forall st more,
  MAX_ITERATIONS <= iterations st + fuel ->
  run (fuel + more) st = run fuel st.
Proof.
  induction fuel as [|fuel IH]; intros st more Hfuel.
  - simpl. apply while_done. apply spent_not_running. lia.
  - simpl. destruct (running st) eqn:Hcond; [|reflexivity].
    apply IH. destruct (turn_effects st) as (evs & _ & Eit & _).
    rewrite Eit. lia.
Qed.

Lemma initial_consistent seed : consistent (initialState seed).
Proof. unfold consistent. simpl. repeat split. unfold MAX_ITERATIONS. lia. Qed.

(** What follows the loop: nothing when an exception has left the function
    or the task is complete; else the write of the limit Error, accepted or
    refused. *)
Lemma afterLoop_cases st :
  running st = false ->
  ((taskComplete st = true \/ exists e, escaped st = Some e)
   /\ limit st = st)
  \/ (taskComplete st = false /\ escaped st = None
      /\ MAX_ITERATIONS <= iterations st
      /\ createActivity (trace st) (ErrorContent maxIterationsMessage)
         = Return tt
      /\ limit st
         = mkState (messages st) false (iterations st)
             (trace st ++ [Activity (ErrorContent maxIterationsMessage)])
             None)
  \/ (exists escaping,
        taskComplete st = false /\ escaped st = None
        /\ MAX_ITERATIONS <= iterations st
        /\ createActivity (trace st) (ErrorContent maxIterationsMessage)
           = Throw escaping
        /\ limit st
           = mkState (messages st) false (iterations st)
               (trace st ++ [Rejected (ErrorContent maxIterationsMessage)])
               (Some escaping)).
Proof.
  intros Hexit. unfold afterLoop.
  destruct (running_false st Hexit)
    as [[e He]|[[Hesc Htc]|(Hesc & Htc & Hspent)]].
  - left. rewrite He. split; [right; now exists e | reflexivity].
  - left. rewrite Hesc, Htc. split; [now left | reflexivity].
  - right. rewrite Hesc, Htc. cbn [negb andb].
    apply Nat.leb_le in Hspent as Hb. rewrite Hb.
    unfold createAgentActivity, emit, leave.
    destruct (createActivity (trace st) (ErrorContent maxIterationsMessage))
      as [[]|escaping]; cbn [fst snd messages taskComplete iterations trace];
      rewrite ?Htc, ?Hesc.
    + left. auto.
    + right. exists escaping. auto.
Qed.

Lemma afterLoop_effects st :
  iterations (limit st) = iterations st
  /\ filter isCompletion (trace (limit st))
     = filter isCompletion (trace st)
  /\ messages (limit st) = messages st.
Proof.
  unfold afterLoop. destruct (escaped st); [auto|].
  destruct (negb (taskComplete st) && (MAX_ITERATIONS <=? iterations st));
    [|auto].
  unfold createAgentActivity, emit, leave.
  destruct (createActivity (trace st) (ErrorContent maxIterationsMessage));
    cbn [fst snd messages taskComplete iterations trace];
    rewrite filter_app; simpl; now rewrite app_nil_r.
Qed.

Lemma turn_thought st response b :
  text (S (iterations st)) (messages st) = Return response ->
  mapper response = Return (ThoughtContent b) ->
  createActivity
    (trace st ++ [Completion (S (iterations st)) (messages st)])
    (ThoughtContent b) = Return tt ->
  turn st
  = mkState (messages st ++ [mkMessage assistant response])
      (taskComplete st) (S (iterations st))
      (trace st ++ [ Completion (S (iterations st)) (messages st);
                     Activity (ThoughtContent b); Delay ])
      (escaped st).
Proof.
  intros Ht Hm Hw. rewrite turn_unfold.
  now rewrite (try_thought (entered st) response b Ht Hm Hw).
Qed.

(** A model that only thinks uses up the budget, one Thought a turn, when
    the tracker accepts what is written. *)
Lemma while_thinking :
  (forall tick sent, exists response b,
      text tick sent = Return response
      /\ mapper response = Return (ThoughtContent b)) ->
  (forall done c, createActivity done c = Return tt) ->
  forall fuel st,
    taskComplete st = false ->
    escaped st = None ->
    iterations st + fuel = MAX_ITERATIONS ->
    exists thoughts,
      persisted (trace (run fuel st)) = persisted (trace st) ++ thoughts
      /\ List.length thoughts = fuel
      /\ forallb isThought thoughts = true
      /\ taskComplete (run fuel st) = false
      /\ escaped (run fuel st) = None
      /\ iterations (run fuel st) = MAX_ITERATIONS.
Proof.
  intros Hthink Hwrite. induction fuel as [|fuel IH];
    intros st Hfalse Hnone Hfuel.
  - exists []. simpl. rewrite app_nil_r. repeat split; auto. lia.
  - simpl.
    assert (Hcond : running st = true).
    { unfold running, loopCondition. rewrite Hnone, Hfalse. simpl.
      apply Nat.ltb_lt. lia. }
    rewrite Hcond.
    destruct (Hthink (S (iterations st)) (messages st))
      as (response & b & Ht & Hm).
    rewrite (turn_thought st response b Ht Hm (Hwrite _ _)).
    destruct (IH (mkState (messages st ++ [mkMessage assistant response])
                    (taskComplete st) (S (iterations st))
                    (trace st
                     ++ [ Completion (S (iterations st)) (messages st);
                          Activity (ThoughtContent b); Delay ])
                    (escaped st)))
      as (thoughts & Hp & Hlen & Hall & Hc & He & Hi);
      [exact Hfalse | exact Hnone | simpl; lia |].
    exists (ThoughtContent b :: thoughts).
    rewrite Hp. simpl trace. rewrite persisted_app. simpl.
    rewrite <- app_assoc. simpl. rewrite Hlen, Hall. repeat split; auto.
Qed.

(** C1: a run makes at most 10 turns, each with one completion request,
    and the loop ends on its own (more fuel changes nothing); when every
    completion maps to a Thought and the tracker accepts every write, the
    run makes exactly 10 turns and persists 10 Thoughts and then the Error
    of the reached limit. *)
Theorem loop_bound seed :
  iterations (loop seed) <= 10
  /\ List.length (filter isCompletion (trace (loop seed)))
     = iterations (loop seed)
  /\ (forall fuel, 10 <= fuel ->
        limit (run fuel (initialState seed)) = loop seed)
  /\ ((forall tick sent, exists response b,
          text tick sent = Return response
          /\ mapper response = Return (ThoughtContent b)) ->
      (forall done c, createActivity done c = Return tt) ->
      iterations (loop seed) = 10
      /\ exists thoughts,
           persisted (trace (loop seed))
           = thoughts ++ [ErrorContent maxIterationsMessage]
           /\ List.length thoughts = 10
           /\ forallb isThought thoughts = true).
Proof.
  unfold agentLoop. fold (initialState seed).
  destruct (afterLoop_effects (run MAX_ITERATIONS (initialState seed)))
    as (Eit & Ecalls & _).
  destruct (while_consistent MAX_ITERATIONS _ (initial_consistent seed))
    as (_ & Hcalls & Hbound).
  rewrite Eit, Ecalls. unfold MAX_ITERATIONS in Hbound.
  split; [exact Hbound|]. split; [exact Hcalls|]. split.
  - intros fuel Hfuel.
    replace fuel with (MAX_ITERATIONS + (fuel - MAX_ITERATIONS))
      by (unfold MAX_ITERATIONS; lia).
    rewrite while_fuel; [reflexivity | simpl; lia].
  - intros Hthink Hwrite.
    destruct (while_thinking Hthink Hwrite MAX_ITERATIONS (initialState seed)
                eq_refl eq_refl eq_refl)
      as (thoughts & Hp & Hlen & Hall & Hc & He & Hi).
    set (st := run MAX_ITERATIONS (initialState seed)) in *.
    split; [exact Hi|].
    exists thoughts. unfold afterLoop. rewrite He, Hc, Hi.
    change (negb false && (MAX_ITERATIONS <=? MAX_ITERATIONS)) with true.
    cbv iota. unfold createAgentActivity. rewrite Hwrite.
    unfold emit. simpl snd. simpl trace.
    rewrite persisted_app, Hp. auto.
Qed.

(** C10: at most one terminal activity is persisted in the loop; after
    the loop nothing more is persisted, or the Error of the reached limit
    alone, and this only when the loop persisted no terminal activity; so
    the run persists at most one terminal activity. *)
Theorem single_ending seed :
  terminalCount
    (persisted (trace (run MAX_ITERATIONS (initialState seed)))) <= 1
  /\ (exists last,
        persisted (trace (loop seed))
        = persisted (trace (run MAX_ITERATIONS (initialState seed))) ++ last
        /\ (last = []
            \/ (last = [ErrorContent maxIterationsMessage]
                /\ terminalCount
                     (persisted
                        (trace (run MAX_ITERATIONS (initialState seed))))
                   = 0)))
  /\ terminalCount (persisted (trace (loop seed))) <= 1.
Proof.
  unfold agentLoop. fold (initialState seed).
  destruct (while_consistent MAX_ITERATIONS _ (initial_consistent seed))
    as (Hterm & _ & _).
  assert (Hexit := while_exit MAX_ITERATIONS (initialState seed)
                     (Nat.le_refl _)).
  set (st := run MAX_ITERATIONS (initialState seed)) in *.
  assert (Hone : terminalCount (persisted (trace st)) <= 1).
  { rewrite Hterm. destruct (taskComplete st); lia. }
  split; [exact Hone|].
  destruct (afterLoop_cases st Hexit)
    as [[_ ->]|[(Htc & _ & _ & _ & ->)|(e & Htc & _ & _ & _ & ->)]];
    cbn [trace].
  - split; [|exact Hone]. exists []. rewrite app_nil_r. auto.
  - rewrite Htc in Hterm. rewrite persisted_app, terminalCount_app, Hterm.
    split; [|apply Nat.le_refl].
    exists [ErrorContent maxIterationsMessage]. auto.
  - rewrite persisted_app.
    change (persisted [Rejected (ErrorContent maxIterationsMessage)])
      with (@nil Content).
    rewrite app_nil_r.
    split; [|exact Hone]. exists []. rewrite app_nil_r. auto.
Qed.

Lemma while_iterations n : forall st,
  running (run n st) = true ->
  iterations (run n st) = iterations st + n.
Proof.
  induction n as [|n IH]; intros st Hcond; simpl in *; [lia|].
  destruct (running st) eqn:Hst.
  - rewrite (IH _ Hcond).
    destruct (turn_effects st) as (evs & _ & Eit & _). rewrite Eit. lia.
  - congruence.
Qed.

Lemma while_continue n : forall st more,
  running (run n st) = true ->
  run (n + S more) st = run more (turn (run n st)).
Proof.
  induction n as [|n IH]; intros st more Hcond; simpl in *.
  - now rewrite Hcond.
  - destruct (running st) eqn:Hst; [now apply IH | congruence].
Qed.

(** Where a throw of the [try] block comes from: the completion request,
    the mapper, the tracker refusing the first write, the tool, or the
    tracker refusing the outcome record. *)
Lemma try_throws_sources st e st' :
  try st = (Throw e, st') ->
  text (iterations st) (messages st) = Throw e
  \/ exists response,
       text (iterations st) (messages st) = Return response
       /\ (mapper response = Throw e
           \/ exists c,
                mapper response = Return c
                /\ (createActivity
                      (trace st
                       ++ [Completion (iterations st) (messages st)]) c
                    = Throw e
                    \/ exists tool p,
                         c = ActionContent tool p None
                         /\ (execute (iterations st) tool p = Throw e
                             \/ exists toolResult,
                                  execute (iterations st) tool p
                                  = Return toolResult
                                  /\ createActivity
                                       (trace st
                                        ++ [ Completion (iterations st)
                                               (messages st);
                                             Activity
                                               (ActionContent tool p None);
                                             ToolCall (iterations st) tool
                                               p ])
                                       (ActionContent tool p
                                          (Some toolResult))
                                     = Throw e))).
Proof.
  intros Htry. pose proof (try_tried st) as H. rewrite Htry in H.
  cbn [fst snd] in H.
  inversion H
    as [ e0 Ht | response e0 Ht Hm | response c e0 Ht Hm Hw
       | response b Ht Hm Hw | response c Ht Hm Hc Hw
       | response tool p e0 Ht Hm Hw He
       | response tool p toolResult e0 Ht Hm Hw He Hw2
       | response tool p toolResult Ht Hm Hw He Hw2 ];
    subst; [now left | right; exists response; split; auto ..].
  - right. exists c. auto.
  - right. exists (ActionContent tool p None). split; [auto|].
    right. exists tool, p. auto.
  - right. exists (ActionContent tool p None). split; [auto|].
    right. exists tool, p. split; [auto|]. right. now exists toolResult.
Qed.

(** A failed completion request throws an [Error] whose message tells
    so. *)
Lemma completion_failure_message tick sent e :
  text tick sent = Throw e ->
  exists error,
    createCompletion tick sent = Throw error
    /\ e = JsError (lit "OpenAI API error: " ++ messageOf error).
Proof.
  unfold completionText.
  destruct (createCompletion tick sent) as [[[|c s]|]|error];
    try discriminate.
  intros H. inversion H. now exists error.
Qed.

(** What the [try] block does before it throws: one completion request,
    and nothing terminal persisted. *)
Lemma tried_throws_effects st e st' :
  tries st (Throw e) st' ->
  iterations st' = iterations st
  /\ taskComplete st' = taskComplete st
  /\ escaped st' = escaped st
  /\ exists evs,
       trace st' = trace st ++ evs
       /\ List.length (filter isCompletion evs) = 1
       /\ terminalCount (persisted evs) = 0.
Proof.
  intros H. inversion H; subst;
    cbn [messages taskComplete iterations trace escaped];
    (do 3 (split; [reflexivity|])); eexists;
    (split; [reflexivity|]); split; reflexivity.
Qed.

(** C2: when the [try] block of a turn throws, the run ends there; no
    further completion is requested and no tool is run again. When the
    tracker accepts it, the Error activity with the message of what was
    thrown is the last event of the run, right after what the failing turn
    had done, and it is the only Error activity of the run; when the
    tracker refuses it, the run persists no Error activity and the
    exception of the refusal leaves the function. *)
Theorem failure_ends_run seed n e st' :
  running (run n (initialState seed)) = true ->
  try (entered (run n (initialState seed))) = (Throw e, st') ->
  messages (loop seed) = messages st'
  /\ iterations (loop seed) = S n
  /\ List.length (filter isCompletion (trace (loop seed))) = S n
  /\ ((createActivity (trace st') (agentError e) = Return tt
       /\ trace (loop seed) = trace st' ++ [Activity (agentError e)]
       /\ taskComplete (loop seed) = true
       /\ escaped (loop seed) = None
       /\ errorCount (persisted (trace (loop seed))) = 1)
      \/ (exists escaping,
            createActivity (trace st') (agentError e) = Throw escaping
            /\ trace (loop seed) = trace st' ++ [Rejected (agentError e)]
            /\ taskComplete (loop seed) = false
            /\ escaped (loop seed) = Some escaping
            /\ errorCount (persisted (trace (loop seed))) = 0)).
Proof.
  intros Hcond Htry.
  assert (Hit := while_iterations n _ Hcond).
  assert (Hst := while_consistent n _ (initial_consistent seed)).
  set (st := run n (initialState seed)) in *.
  destruct (running_true _ Hcond) as (Hnone & Hfalse & Hlt).
  simpl in Hit. rewrite Hit in Hlt.
  pose proof (try_tried (entered st)) as Htried. rewrite Htry in Htried.
  cbn [fst snd] in Htried.
  destruct (tried_throws_effects _ _ _ Htried)
    as (Eit & Etc & Eesc & evs & Etr & Ecount & H0).
  cbn [entered messages taskComplete iterations trace escaped]
    in Eit, Etc, Eesc, Etr.
  destruct Hst as (Hterm & Hcalls & _). rewrite Hfalse in Hterm.
  assert (Hturn : loop seed = turn st).
  { unfold agentLoop. fold (initialState seed).
    replace MAX_ITERATIONS with (n + S (MAX_ITERATIONS - S n)) by lia.
    rewrite (while_continue n _ _ Hcond). fold st.
    assert (Hstop : running (turn st) = false).
    { rewrite turn_unfold, Htry, catch_unfold.
      unfold running, loopCondition, leave.
      destruct (createActivity (trace st') (agentError e));
        cbn [escaped taskComplete]; [|reflexivity].
      now rewrite Eesc, Hnone. }
    rewrite (while_done _ _ Hstop).
    destruct (afterLoop_cases _ Hstop)
      as [[_ E]|[(Htc & Hesc & _)|(e' & Htc & Hesc & _)]]; [exact E| |];
      exfalso; revert Htc Hesc;
      rewrite turn_unfold, Htry, catch_unfold; unfold leave;
      destruct (createActivity (trace st') (agentError e));
      cbn [taskComplete escaped]; congruence. }
  rewrite Hturn, turn_unfold, Htry, catch_unfold. unfold leave.
  assert (Herr : errorCount (persisted (trace st')) = 0).
  { rewrite Etr, persisted_app, errorCount_app.
    pose proof (errorCount_le_terminalCount (persisted (trace st))).
    pose proof (errorCount_le_terminalCount (persisted evs)). lia. }
  assert (Hreq : List.length (filter isCompletion (trace st')) = S n).
  { rewrite Etr, filter_app, length_app, Hcalls, Ecount. lia. }
  destruct (createActivity (trace st') (agentError e)) as [[]|escaping];
    cbn [messages taskComplete iterations trace escaped];
    (split; [reflexivity|]); (split; [lia|]);
    (split; [rewrite filter_app, length_app, Hreq; simpl; lia|]).
  - left. rewrite persisted_app, errorCount_app, Herr.
    repeat split; congruence.
  - right. exists escaping. rewrite persisted_app, errorCount_app, Herr.
    repeat split; congruence.
Qed.
End TurnProperties.

Lemma loop_bound_witness :
  iterations (sampleLoop alwaysThinking []) = 10
  /\ exists thoughts,
       persisted (trace (sampleLoop alwaysThinking []))
       = thoughts ++ [ErrorContent maxIterationsMessage]
       /\ List.length thoughts = 10
       /\ forallb isThought thoughts = true.
Proof.
  apply (loop_bound sampleUnreachable jsstring (fun l => l) jsstring
           (fun v => v) sampleCoordinates sampleWeather sampleTime
           alwaysThinking accepting []).
  - intros tick sent.
    exists (lit "THINKING: still working on it"), (lit "still working on it").
    split; reflexivity.
  - reflexivity.
Defined.

(** C1, as written, fails when the tracker refuses a write: the refusal of
    the first Thought is caught, the Error of the failure is persisted and
    the run ends after one turn. *)
Lemma thinkingClaim_fails : ~ thinkingClaim alwaysThinking refusingOnce.
Proof.
  intros claim.
  destruct (claim
              (fun _ _ =>
                 ex_intro _ (lit "THINKING: still working on it")
                   (ex_intro _ (lit "still working on it")
                      (conj eq_refl eq_refl)))
              []) as [Hturns _].
  vm_compute in Hturns. discriminate Hturns.
Qed.

(** What that run does. *)
Lemma refused_thought_run :
  sampleRun alwaysThinking refusingOnce []
  = mkState [] true 1
      [ Completion 1 [];
        Rejected (ThoughtContent (lit "still working on it"));
        Activity (ErrorContent (lit "Agent error: tracker down")) ]
      None.
Proof. reflexivity. Qed.

Lemma failure_ends_run_witness :
  messages (sampleLoop apiDown []) = []
  /\ iterations (sampleLoop apiDown []) = 1
  /\ List.length (filter isCompletion (trace (sampleLoop apiDown []))) = 1
  /\ ((accepting [Completion 1 []]
         (agentError (JsError (lit "OpenAI API error: 503"))) = Return tt
       /\ trace (sampleLoop apiDown [])
          = [Completion 1 []]
            ++ [Activity
                  (agentError (JsError (lit "OpenAI API error: 503")))]
       /\ taskComplete (sampleLoop apiDown []) = true
       /\ escaped (sampleLoop apiDown []) = None
       /\ errorCount (persisted (trace (sampleLoop apiDown []))) = 1)
      \/ (exists escaping,
            accepting [Completion 1 []]
              (agentError (JsError (lit "OpenAI API error: 503")))
            = Throw escaping
            /\ trace (sampleLoop apiDown [])
               = [Completion 1 []]
                 ++ [Rejected
                       (agentError (JsError (lit "OpenAI API error: 503")))]
            /\ taskComplete (sampleLoop apiDown []) = false
            /\ escaped (sampleLoop apiDown []) = Some escaping
            /\ errorCount (persisted (trace (sampleLoop apiDown []))) = 0)).
Proof.
  apply (failure_ends_run sampleUnreachable jsstring (fun l => l) jsstring
           (fun v => v) sampleCoordinates sampleWeather sampleTime apiDown
           accepting [] 0 (JsError (lit "OpenAI API error: 503"))
           (mkState [] false 1 [Completion 1 []] None));
    reflexivity.
Defined.

(** C2, as written, fails when the tracker is down: the write of the Error
    activity is refused too, nothing is persisted, and the exception of
    the refusal leaves [handleUserPrompt]. *)
Lemma failureClaim_fails : ~ failureClaim apiDown refusing.
Proof.
  intros claim.
  destruct (claim [] (JsError (lit "OpenAI API error: 503"))
              (mkState [] false 1 [Completion 1 []] None) eq_refl)
    as [Hcount _].
  vm_compute in Hcount. discriminate Hcount.
Qed.

(** What that run does. *)
Lemma refused_error_run :
  sampleRun apiDown refusing []
  = mkState [] false 1
      [ Completion 1 [];
        Rejected (ErrorContent (lit "Agent error: OpenAI API error: 503")) ]
      (Some trackerDown).
Proof. reflexivity. Qed.

Lemma action_turn_witness :
  let st := sampleTurn askingWeather accepting (initialState []) in
  persisted (trace st)
  = [ ActionContent GetWeather (Some (lit "40.0, -74.0")) None;
      ActionContent GetWeather (Some (lit "40.0, -74.0"))
        (Some (lit "{temperature:21}")) ]
  /\ messages st
     = [ mkMessage assistant (lit "ACTION: getWeather(40.0, -74.0)");
         mkMessage user (lit "Tool result: {temperature:21}") ]
  /\ taskComplete st = false
  /\ iterations st = 1
  /\ escaped st = None.
Proof.
  apply (action_turn sampleUnreachable jsstring (fun l => l) jsstring
           (fun v => v) sampleCoordinates sampleWeather sampleTime
           askingWeather accepting (initialState [])
           (lit "ACTION: getWeather(40.0, -74.0)") GetWeather
           (Some (lit "40.0, -74.0")) None (lit "{temperature:21}"));
    reflexivity.
Defined.

(** C3, as written, fails when the tracker refuses the outcome record: the
    refusal is caught, and the turn persists the intent record and then the
    Error of the failure. *)
Lemma actionClaim_fails : ~ actionClaim askingWeather refusingOutcomes.
Proof.
  intros claim.
  specialize (claim (initialState []) (lit "ACTION: getWeather(40.0, -74.0)")
                GetWeather (Some (lit "40.0, -74.0")) None
                (lit "{temperature:21}") eq_refl eq_refl eq_refl).
  vm_compute in claim. discriminate claim.
Qed.

(** What that turn does. *)
Lemma refused_outcome_turn :
  sampleTurn askingWeather refusingOutcomes (initialState [])
  = mkState
      [ mkMessage assistant (lit "ACTION: getWeather(40.0, -74.0)");
        mkMessage user (lit "Tool result: {temperature:21}") ]
      true 1
      [ Completion 1 [];
        Activity (ActionContent GetWeather (Some (lit "40.0, -74.0")) None);
        ToolCall 1 GetWeather (Some (lit "40.0, -74.0"));
        Rejected
          (ActionContent GetWeather (Some (lit "40.0, -74.0"))
             (Some (lit "{temperature:21}")));
        Activity (ErrorContent (lit "Agent error: tracker down")) ]
      None.
Proof. reflexivity. Qed.

(** * Further properties *)

(** ** The mapper *)

Lemma mappedType_is_action response :
  mappedType response = Action -> startsWith ACTION response = true.
Proof.
  unfold mappedType. cbn [find typeToKeyword snd fst].
  destruct (startsWith THINKING response); [discriminate|].
  destruct (startsWith ACTION response); [reflexivity|].
  destruct (startsWith RESPONSE response); [discriminate|].
  destruct (startsWith ELICITATION response); [discriminate|].
  destruct (startsWith ERROR response); discriminate.
Qed.

(** X1: no text starts with two keywords, so the variant the mapper picks
    is that of the one keyword the text starts with, whatever the order in
    which the table is searched. *)
Theorem keyword_exclusive response t keyword :
  In (t, keyword) typeToKeyword ->
  startsWith keyword response = true ->
  mappedType response = t
  /\ forall t' keyword',
       In (t', keyword') typeToKeyword ->
       startsWith keyword' response = true ->
       t' = t /\ keyword' = keyword.
Proof.
  intros Hin Hstart.
  apply startsWith_inv in Hstart.
  set (rest := skipn (List.length keyword) response) in Hstart.
  clearbody rest. subst response.
  simpl in Hin.
  destruct Hin as [E|[E|[E|[E|[E|[]]]]]]; inversion E; subst t keyword;
    (split; [reflexivity|]);
    intros t' keyword' Hin' Hstart'; simpl in Hin';
    destruct Hin' as [E'|[E'|[E'|[E'|[E'|[]]]]]]; inversion E';
      subst t' keyword'; try (split; reflexivity); discriminate Hstart'.
Qed.

Lemma keyword_exclusive_witness :
  mappedType (lit "ERROR: no such place") = Error
  /\ forall t' keyword',
       In (t', keyword') typeToKeyword ->
       startsWith keyword' (lit "ERROR: no such place") = true ->
       t' = Error /\ keyword' = ERROR.
Proof.
  apply (keyword_exclusive (lit "ERROR: no such place") Error ERROR).
  - simpl. do 4 right. left. reflexivity.
  - reflexivity.
Defined.

(** X2: the activity the mapper returns has the variant of the keyword
    found (Thought when there is none), and the mapper throws on no text
    but one that starts with ACTION:. *)
Theorem mapper_throws_only_on_action (U : AgentActivityType -> thrown)
    response :
  (forall c,
      mapResponseToLinearActivityContent U response = Return c ->
      contentType c = mappedType response)
  /\ (forall e,
      mapResponseToLinearActivityContent U response = Throw e ->
      startsWith ACTION response = true).
Proof.
  unfold mapResponseToLinearActivityContent.
  destruct (mappedType response) eqn:Ht; split; intros x H;
    try (inversion H; subst; reflexivity); try discriminate H.
  - destruct (regexMatch actionPattern response)
      as [[|a [|b [|c0 caps]]]|]; try discriminate H.
    destruct (parseToolName a); inversion H; reflexivity.
  - now apply mappedType_is_action.
  - exfalso. revert Ht. unfold mappedType. cbn [find typeToKeyword snd fst].
    repeat match goal with
           | |- context [startsWith ?k response] =>
               destruct (startsWith k response); try discriminate
           end.
Qed.

Lemma mapper_throws_only_on_action_witness :
  startsWith ACTION (lit "ACTION: fly(me)") = true.
Proof.
  apply (proj2 (mapper_throws_only_on_action sampleUnreachable
                  (lit "ACTION: fly(me)"))
           (JsError (lit "Invalid tool name: fly"))).
  reflexivity.
Defined.

Lemma trimStart_head s c r :
  trimStart s = c :: r -> isWhiteSpace c = false.
Proof.
  induction s as [|a s IH]; simpl; [discriminate|].
  destruct (isWhiteSpace a) eqn:Ha; [exact IH|].
  intros H. inversion H; subst. exact Ha.
Qed.

Lemma trimStart_suffix s : exists pre, s = pre ++ trimStart s.
Proof.
  induction s as [|a s [pre IH]]; simpl; [now exists []|].
  destruct (isWhiteSpace a).
  - exists (a :: pre). simpl. now rewrite <- IH.
  - now exists [].
Qed.

Lemma trim_head s c r : trim s = c :: r -> isWhiteSpace c = false.
Proof.
  unfold trim, trimEnd. intros H.
  destruct (trimStart_suffix (rev (trimStart s))) as [pre Hpre].
  apply (f_equal (@rev N)) in Hpre.
  rewrite rev_involutive, rev_app_distr, H in Hpre. simpl in Hpre.
  now apply trimStart_head in Hpre.
Qed.

Lemma trim_last s r c : trim s = r ++ [c] -> isWhiteSpace c = false.
Proof.
  unfold trim, trimEnd. intros H.
  apply (f_equal (@rev N)) in H.
  rewrite rev_involutive, rev_app_distr in H. simpl in H.
  now apply trimStart_head in H.
Qed.

(** X3: the body of the activity the mapper returns neither starts nor
    ends with white space. *)
Theorem mapper_body_trimmed (U : AgentActivityType -> thrown) response c b :
  mapResponseToLinearActivityContent U response = Return c ->
  contentBody c = Some b ->
  (forall x r, b = x :: r -> isWhiteSpace x = false)
  /\ (forall r x, b = r ++ [x] -> isWhiteSpace x = false).
Proof.
  unfold mapResponseToLinearActivityContent, stripKeyword.
  intros Hm Hb.
  assert (Htrim : exists s, b = trim s).
  { destruct (mappedType response); try discriminate Hm;
      try (inversion Hm; subst c; simpl in Hb; inversion Hb; eauto).
    destruct (regexMatch actionPattern response)
      as [[|a0 [|b0 [|c0 caps]]]|]; try discriminate Hm.
    destruct (parseToolName a0); inversion Hm; subst c. discriminate Hb. }
  destruct Htrim as [s ->]. split.
  - intros x r H. now apply trim_head in H.
  - intros r x H. now apply trim_last in H.
Qed.

Lemma mapper_body_trimmed_witness :
  (forall x r, lit "It is sunny." = x :: r -> isWhiteSpace x = false)
  /\ (forall r x, lit "It is sunny." = r ++ [x] -> isWhiteSpace x = false).
Proof.
  apply (mapper_body_trimmed sampleUnreachable
           (lit "RESPONSE:   It is sunny.  ")
           (ResponseContent (lit "It is sunny.")) (lit "It is sunny."));
    reflexivity.
Defined.

Lemma parseToolName_inv x t : parseToolName x = Some t -> x = toolNameString t.
Proof.
  unfold parseToolName. intros H. apply find_some in H as [_ H].
  now apply jsstring_eqb_eq.
Qed.

(** X4: an action the mapper returns is in the text: the text starts with
    ACTION: and holds a call of that tool whose argument text is the
    parameter; the parameter is not empty and the result is absent. *)
Theorem mapper_action_sound (U : AgentActivityType -> thrown)
    response tool parameter result0 :
  mapResponseToLinearActivityContent U response
  = Return (ActionContent tool parameter result0) ->
  result0 = None
  /\ startsWith ACTION response = true
  /\ exists pre ws args rest,
       parameter = Some args
       /\ callPattern response pre ws (toolNameString tool) args rest.
Proof.
  intros Hm.
  assert (Ht : startsWith ACTION response = true).
  { apply mappedType_is_action. revert Hm.
    unfold mapResponseToLinearActivityContent.
    destruct (mappedType response); try discriminate. reflexivity. }
  unfold mapResponseToLinearActivityContent in Hm.
  rewrite (mappedType_action _ Ht) in Hm.
  destruct (regexMatch actionPattern response) as [caps|] eqn:Hr;
    [|discriminate Hm].
  destruct (regexMatch_sound _ _ Hr)
    as (pre & ws & ident & args & rest & Hc & ->).
  destruct (parseToolName ident) as [t|] eqn:Hp; [|discriminate Hm].
  inversion Hm; subst. apply parseToolName_inv in Hp. subst ident.
  repeat split; auto.
  exists pre, ws, args, rest. split; [|exact Hc].
  destruct Hc as (_ & _ & _ & _ & Ha & _). now destruct args.
Qed.

Lemma mapper_action_sound_witness :
  @None jsstring = None
  /\ startsWith ACTION (lit "ACTION:getTime(40,-74) please") = true
  /\ exists pre ws args rest,
       Some (lit "40,-74") = Some args
       /\ callPattern (lit "ACTION:getTime(40,-74) please") pre ws
            (toolNameString GetTime) args rest.
Proof.
  apply (mapper_action_sound sampleUnreachable
           (lit "ACTION:getTime(40,-74) please") GetTime
           (Some (lit "40,-74")) None).
  reflexivity.
Defined.

(** X5: a text that starts with ACTION: and holds a call somewhere never
    falls through to the unreachable-case error: the mapper returns the
    action of a call of the text, or throws on its tool name. *)
Theorem mapper_action_found (U : AgentActivityType -> thrown)
    response pre ws ident args rest :
  startsWith ACTION response = true ->
  callPattern response pre ws ident args rest ->
  exists pre' ws' ident' args' rest',
    callPattern response pre' ws' ident' args' rest'
    /\ mapResponseToLinearActivityContent U response
       = match parseToolName ident' with
         | Some tool => Return (ActionContent tool (Some args') None)
         | None => Throw (JsError (lit "Invalid tool name: " ++ ident'))
         end.
Proof.
  intros Hstart Hcall.
  destruct (regexMatch_complete _ _ _ _ _ _ Hcall) as [caps Hr].
  destruct (regexMatch_sound _ _ Hr)
    as (pre' & ws' & ident' & args' & rest' & Hc & ->).
  exists pre', ws', ident', args', rest'. split; [exact Hc|].
  unfold mapResponseToLinearActivityContent.
  rewrite (mappedType_action _ Hstart), Hr.
  destruct (parseToolName ident'); [|reflexivity].
  destruct Hc as (_ & _ & _ & _ & Ha & _). now destruct args'.
Qed.

Lemma mapper_action_found_witness :
  exists pre' ws' ident' args' rest',
    callPattern (lit "ACTION: first ACTION: getTime(1,2)") pre' ws' ident' args' rest'
    /\ mapResponseToLinearActivityContent sampleUnreachable
         (lit "ACTION: first ACTION: getTime(1,2)")
       = match parseToolName ident' with
         | Some tool => Return (ActionContent tool (Some args') None)
         | None => Throw (JsError (lit "Invalid tool name: " ++ ident'))
         end.
Proof.
  apply (mapper_action_found sampleUnreachable
           (lit "ACTION: first ACTION: getTime(1,2)")
           (lit "ACTION: first ") (lit " ") (lit "getTime") (lit "1,2") []).
  - reflexivity.
  - unfold callPattern. repeat split; try reflexivity; discriminate.
Defined.

(** ** The executors *)

Lemma split_nonempty sep s : split sep s <> [].
Proof.
  destruct s as [|c s]; simpl; [discriminate|].
  destruct (c =? sep)%N; [discriminate|].
  destruct (split sep s); discriminate.
Qed.

Lemma split_app sep a b :
  split sep (a ++ sep :: b) = split sep a ++ split sep b.
Proof.
  induction a as [|c a IH]; simpl.
  - now rewrite N.eqb_refl.
  - destruct (c =? sep)%N; rewrite IH; [reflexivity|].
    pose proof (split_nonempty sep a) as Hne.
    destruct (split sep a); [congruence | reflexivity].
Qed.

Section ExecutorProperties.
Variable number : Type.
Variable StringToNumber : jsstring -> number.
Variable value : Type.
Variable JSON_stringify : value -> jsstring.
Variable getCoordinates : nat -> jsstring -> result value.
Variable getWeather : nat -> number -> number -> result value.
Variable getTime : nat -> number -> number -> result jsstring.

Local Abbreviation execute :=
  (executeAction StringToNumber JSON_stringify getCoordinates getWeather
     getTime).

(** The first two numbers of a parameter, as its tokens tell. *)
Lemma parseParts_first_two parameter :
  (firstTwoNumeric parameter = false /\
   match parseParts StringToNumber parameter with
   | Some _ :: Some _ :: _ => False
   | _ => True
   end)
  \/ (firstTwoNumeric parameter = true /\
      exists t0 t1 more l0 l1 rest,
        split 44 parameter = t0 :: t1 :: more
        /\ decimalPrefix (trimStart (trim t0)) = Some l0
        /\ decimalPrefix (trimStart (trim t1)) = Some l1
        /\ parseParts StringToNumber parameter
           = Some (StringToNumber l0) :: Some (StringToNumber l1) :: rest).
Proof.
  unfold firstTwoNumeric, numeric, parseParts.
  destruct (split 44 parameter) as [|t0 [|t1 more]]; cbn [List.map];
    rewrite ?parseFloat_numeric.
  - left. auto.
  - left. split; [reflexivity|].
    now destruct (decimalPrefix (trimStart (trim t0))).
  - destruct (decimalPrefix (trimStart (trim t0))) as [l0|] eqn:E0;
      [|left; simpl; auto].
    destruct (decimalPrefix (trimStart (trim t1))) as [l1|] eqn:E1;
      [|left; simpl; auto].
    right. split; [reflexivity|].
    exists t0, t1, more, l0, l1,
      (List.map (fun p => parseFloat StringToNumber (trim p)) more).
    repeat split; assumption.
Qed.

(** X7: on a non-empty parameter the get-local-time executor throws its
    invalid-parameter error when the parameter has fewer than two tokens or
    one of its first two tokens is not numeric, and otherwise answers what
    the time lookup answers at the numbers of the first two tokens, as it
    is (not serialized). *)
Theorem getTime_parameter tick parameter :
  parameter <> [] ->
  (firstTwoNumeric parameter = false ->
     execute tick GetTime (Some parameter) = Throw invalidTimeParameter)
  /\ (firstTwoNumeric parameter = true ->
     exists t0 t1 more l0 l1,
       split 44 parameter = t0 :: t1 :: more
       /\ decimalPrefix (trimStart (trim t0)) = Some l0
       /\ decimalPrefix (trimStart (trim t1)) = Some l1
       /\ execute tick GetTime (Some parameter)
          = getTime tick (StringToNumber l0) (StringToNumber l1)).
Proof.
  intros Hne.
  assert (Hex : execute tick GetTime (Some parameter)
                = match parseParts StringToNumber parameter with
                  | Some lat :: Some long :: _ => getTime tick lat long
                  | _ => Throw invalidTimeParameter
                  end).
  { destruct parameter; [congruence | reflexivity]. }
  rewrite Hex.
  destruct (parseParts_first_two parameter)
    as [[Hf Hp]|[Ht (t0 & t1 & more & l0 & l1 & rest & Es & E0 & E1 & Ep)]].
  - split; [|congruence]. intros _.
    destruct (parseParts StringToNumber parameter) as [|[x|] [|[y|] r]];
      try reflexivity. contradiction.
  - split; [congruence|]. intros _.
    exists t0, t1, more, l0, l1. rewrite Ep. auto.
Qed.

(** X8: the place the coordinates lookup is asked for holds no quote
    character; a parameter without quotes is passed as it is, and one
    written between quotes is passed without them; the answer is
    serialized. *)
Theorem getCoordinates_parameter tick parameter :
  parameter <> [] ->
  exists place,
    execute tick GetCoordinates (Some parameter)
    = bindResult (getCoordinates tick place)
        (fun v => Return (JSON_stringify v))
    /\ ~ In 34%N place
    /\ (~ In 34%N parameter -> place = parameter)
    /\ (forall inner,
          ~ In 34%N inner -> parameter = 34%N :: inner ++ [34%N] ->
          place = inner).
Proof.
  intros Hne. exists (remove_all 34 parameter).
  assert (Hid : forall s, ~ In 34%N s -> remove_all 34 s = s).
  { induction s as [|c s IH]; intros Hs; [reflexivity|].
    unfold remove_all in *. simpl.
    destruct (N.eqb_spec c 34) as [->|Hc].
    - elim Hs. now left.
    - simpl. f_equal. apply IH. intros Hin. apply Hs. now right. }
  repeat split.
  - destruct parameter; [congruence | reflexivity].
  - unfold remove_all. intros Hin. apply filter_In in Hin as [_ Hin].
    discriminate Hin.
  - apply Hid.
  - intros inner Hinner ->. unfold remove_all. simpl.
    rewrite filter_app. simpl. rewrite app_nil_r. now apply Hid.
Qed.

(** X9: the get-weather and get-local-time executors read the first two
    tokens only: what is written after a further comma changes nothing. *)
Theorem later_tokens_ignored tick tool parameter more :
  tool <> GetCoordinates ->
  2 <= List.length (split 44 parameter) ->
  execute tick tool (Some (parameter ++ 44%N :: more))
  = execute tick tool (Some parameter).
Proof.
  intros Htool Hlen.
  assert (Hne : parameter <> []) by (intros ->; simpl in Hlen; lia).
  assert (Hparts : exists a b r r',
             parseParts StringToNumber parameter = a :: b :: r
             /\ parseParts StringToNumber (parameter ++ 44%N :: more)
                = a :: b :: r').
  { unfold parseParts. rewrite split_app, map_app.
    destruct (split 44 parameter) as [|t0 [|t1 r]]; simpl in Hlen; try lia.
    cbn [List.map app]. do 4 eexists. split; reflexivity. }
  destruct Hparts as (a & b & r & r' & E & E').
  destruct parameter as [|c p]; [congruence|].
  unfold executeAction. cbn [falsy app].
  change (c :: p ++ 44%N :: more) with ((c :: p) ++ 44%N :: more).
  destruct tool; [congruence | |]; rewrite E, E'; reflexivity.
Qed.
End ExecutorProperties.

Lemma getTime_parameter_witness :
  sampleExecute 2 GetTime (Some (lit "one, two")) = Throw invalidTimeParameter
  /\ sampleExecute 2 GetTime (Some (lit " 40.7 , -74 ")) = Return (lit "12:00").
Proof.
  split.
  - apply (getTime_parameter jsstring (fun l => l) jsstring (fun v => v)
             sampleCoordinates sampleWeather sampleTime 2 (lit "one, two"));
      [discriminate | reflexivity].
  - destruct (getTime_parameter jsstring (fun l => l) jsstring (fun v => v)
                sampleCoordinates sampleWeather sampleTime 2
                (lit " 40.7 , -74 ")) as (_ & H); [discriminate|].
    destruct H as (t0 & t1 & more & l0 & l1 & _ & _ & _ & H);
      [reflexivity | exact H].
Defined.

Lemma getCoordinates_parameter_witness :
  exists place,
    sampleExecute 1 GetCoordinates (Some (34%N :: lit "Paris" ++ [34%N]))
    = bindResult (sampleCoordinates 1 place) (fun v => Return v)
    /\ ~ In 34%N place
    /\ (~ In 34%N (34%N :: lit "Paris" ++ [34%N]) ->
        place = 34%N :: lit "Paris" ++ [34%N])
    /\ (forall inner,
          ~ In 34%N inner ->
          34%N :: lit "Paris" ++ [34%N] = 34%N :: inner ++ [34%N] ->
          place = inner).
Proof.
  apply (getCoordinates_parameter jsstring (fun l => l) jsstring
           (fun v => v) sampleCoordinates sampleWeather sampleTime 1
           (34%N :: lit "Paris" ++ [34%N])).
  discriminate.
Defined.

Lemma later_tokens_ignored_witness :
  sampleExecute 1 GetWeather (Some (lit "40,-74" ++ 44%N :: lit " Celsius"))
  = sampleExecute 1 GetWeather (Some (lit "40,-74")).
Proof.
  apply (later_tokens_ignored jsstring (fun l => l) jsstring (fun v => v)
           sampleCoordinates sampleWeather sampleTime 1 GetWeather
           (lit "40,-74") (lit " Celsius")).
  - discriminate.
  - simpl. lia.
Defined.

(** ** The completion request *)




(** ** The order of the loop's effects *)

(** One more turn keeps the order, given what it added to the
    conversation and to the trace. *)
Lemma orderly_step seed st st' evs msgs :
  ended st = false ->
  orderly seed st ->
  messages st' = messages st ++ msgs ->
  forallb (fun m => match role m with system => false | _ => true end) msgs
  = true ->
  iterations st' = S (iterations st) ->
  trace st'
  = trace st ++ Completion (S (iterations st)) (messages st) :: evs ->
  count isDelay evs + (if ended st' then 1 else 0) = 1 ->
  (taskComplete st' = true ->
   escaped st' = None
   /\ exists tr c, evs = tr ++ [Activity c] /\ isTerminal c = true) ->
  (forall e, escaped st' = Some e ->
   taskComplete st' = false
   /\ exists tr e0, evs = tr ++ [Rejected (agentError e0)]) ->
  count isIntent evs = count isToolCall evs ->
  count isOutcome evs <= count isToolCall evs ->
  count isToolCall evs
  <= count isOutcome evs + (if ended st' then 1 else 0) ->
  (ended st' = false -> count isOutcome evs = count isToolCall evs) ->
  orderly seed st'.
Proof.
  intros Hend
    ((more & Hm & Hroles) & Hdelay & _ & _ & Hint & _ & Hle & Hout & H0 & Hn)
    Emsg Hmsgs Eit Etr Edelay Hdone Hesc Eint Ele Ege Eout.
  specialize (Hout Hend). rewrite Hend in Hdelay.
  unfold orderly. rewrite Etr, Eit, Emsg.
  change (Completion (S (iterations st)) (messages st) :: evs)
    with ([Completion (S (iterations st)) (messages st)] ++ evs).
  rewrite !count_app.
  change (count isDelay [Completion (S (iterations st)) (messages st)])
    with 0.
  change (count isIntent [Completion (S (iterations st)) (messages st)])
    with 0.
  change (count isToolCall [Completion (S (iterations st)) (messages st)])
    with 0.
  change (count isOutcome [Completion (S (iterations st)) (messages st)])
    with 0.
  split; [|split; [|split; [|split; [|split; [|split; [|split; [|split;
                                                       [|split]]]]]]]].
  - exists (more ++ msgs). rewrite Hm, app_assoc, forallb_app, Hroles, Hmsgs.
    auto.
  - lia.
  - intros Htc. destruct (Hdone Htc) as (Hnone & tr & c & -> & Hc).
    split; [exact Hnone|].
    exists (trace st
            ++ [Completion (S (iterations st)) (messages st)] ++ tr), c.
    now rewrite <- !app_assoc.
  - intros e He. destruct (Hesc e He) as (Htc & tr & e0 & ->).
    split; [exact Htc|].
    exists (trace st
            ++ [Completion (S (iterations st)) (messages st)] ++ tr), e0.
    now rewrite <- !app_assoc.
  - lia.
  - lia.
  - lia.
  - intros Hgo. specialize (Eout Hgo). lia.
  - discriminate.
  - intros _. destruct (iterations st) as [|k] eqn:Hk.
    + destruct (H0 eq_refl) as [-> ->]. now eexists.
    + destruct Hn as [tr ->]; [discriminate|]. now eexists.
Qed.

Ltac last_event :=
  first
    [ exists []; eexists; split; reflexivity
    | eexists [_]; eexists; split; reflexivity
    | eexists [_; _]; eexists; split; reflexivity
    | eexists [_; _; _]; eexists; split; reflexivity
    | eexists [_; _; _; _]; eexists; split; reflexivity ].

Ltac last_rejected :=
  first
    [ exists []; eexists; reflexivity
    | eexists [_]; eexists; reflexivity
    | eexists [_; _]; eexists; reflexivity
    | eexists [_; _; _]; eexists; reflexivity
    | eexists [_; _; _; _]; eexists; reflexivity ].

Section LoopOrder.
Variable UnreachableCaseError : AgentActivityType -> thrown.
Variable number : Type.
Variable StringToNumber : jsstring -> number.
Variable value : Type.
Variable JSON_stringify : value -> jsstring.
Variable getCoordinates : nat -> jsstring -> result value.
Variable getWeather : nat -> number -> number -> result value.
Variable getTime : nat -> number -> number -> result jsstring.
Variable createCompletion :
  nat -> list ChatMessage -> result (option jsstring).
Variable createActivity : list event -> Content -> result unit.

Local Abbreviation mapper :=
  (mapResponseToLinearActivityContent UnreachableCaseError).
Local Abbreviation execute :=
  (executeAction StringToNumber JSON_stringify getCoordinates getWeather
     getTime).
Local Abbreviation text := (completionText createCompletion).
Local Abbreviation try :=
  (tryBlock UnreachableCaseError StringToNumber JSON_stringify
     getCoordinates getWeather getTime createCompletion createActivity).
Local Abbreviation turn :=
  (iteration UnreachableCaseError StringToNumber JSON_stringify
     getCoordinates getWeather getTime createCompletion createActivity).
Local Abbreviation turns :=
  (turned UnreachableCaseError StringToNumber JSON_stringify getCoordinates
     getWeather getTime createCompletion createActivity).
Local Abbreviation run :=
  (while UnreachableCaseError StringToNumber JSON_stringify getCoordinates
     getWeather getTime createCompletion createActivity).
Local Abbreviation limit := (afterLoop createActivity).
Local Abbreviation loop :=
  (agentLoop UnreachableCaseError StringToNumber JSON_stringify
     getCoordinates getWeather getTime createCompletion createActivity).

Lemma orderly_turned seed st st' :
  ended st = false -> orderly seed st -> turns st st' -> orderly seed st'.
Proof.
  intros Hend Hord Hturn.
  assert (Htc : taskComplete st = false).
  { unfold ended in Hend. now destruct (taskComplete st). }
  assert (Hnone : escaped st = None).
  { unfold ended in Hend. rewrite Htc in Hend. now destruct (escaped st). }
  inversion Hturn as [st1 Htry | e st1 Htry Hw | e st1 escaping Htry Hw];
    inversion Htry; subst;
    try match goal with
        | H : isTerminal ?c = true |- _ => destruct c; try discriminate H
        end;
    (eapply (orderly_step seed st _ _ _ Hend Hord);
     unfold ended;
     cbn [entered messages taskComplete iterations trace escaped];
     rewrite <- ?app_assoc, ?Htc, ?Hnone; cbn [app orb];
     [ first [reflexivity | symmetry; apply app_nil_r]
     | reflexivity
     | reflexivity
     | reflexivity
     | reflexivity
     | first [ intros Habs; discriminate Habs
             | intros _; split; [reflexivity | last_event] ]
     | first [ intros e' Habs; discriminate Habs
             | intros e' _; split; [reflexivity | last_rejected] ]
     | reflexivity
     | unfold count; cbn; lia
     | unfold count; cbn; lia
     | first [ intros Habs; discriminate Habs | intros _; reflexivity ] ]).
Qed.

Lemma initial_orderly seed : orderly seed (initialState seed).
Proof.
  unfold orderly, count, ended. simpl.
  split; [exists []; now rewrite app_nil_r|].
  repeat split; auto; try discriminate. congruence.
Qed.

Lemma run_orderly seed fuel : forall st,
  orderly seed st -> orderly seed (run fuel st).
Proof.
  induction fuel as [|fuel IH]; intros st Hst; simpl; [exact Hst|].
  destruct (running st) eqn:Hcond; [|exact Hst].
  apply IH.
  exact (orderly_turned seed st _ (running_ended _ Hcond) Hst
           (turn_turned _ _ _ _ _ _ _ _ _ _ st)).
Qed.

(** What is left of the loop's state when it has ended. *)
Lemma loop_exit seed :
  exists st,
    orderly seed st /\ running st = false
    /\ iterations st <= MAX_ITERATIONS
    /\ loop seed = limit st.
Proof.
  exists (run MAX_ITERATIONS (initialState seed)).
  split; [apply run_orderly, initial_orderly|].
  split; [apply while_exit; simpl; lia|].
  split; [|reflexivity].
  apply (while_consistent _ _ _ _ _ _ _ _ _ _ MAX_ITERATIONS _
           (initial_consistent seed)).
Qed.

(** X11: the conversation only grows: when the run ends it is the seed
    followed by the messages the loop pushed, none of which is a system
    message. *)
Theorem history_append_only seed :
  exists more,
    messages
      (agentLoop UnreachableCaseError StringToNumber JSON_stringify
       getCoordinates getWeather getTime createCompletion createActivity
       seed)
    = seed ++ more
    /\ forallb (fun m => match role m with system => false | _ => true end)
         more = true.
Proof.
  destruct (loop_exit seed) as (st & Hord & Hexit & _ & ->).
  destruct Hord as (Hmsg & _).
  destruct (afterLoop_effects createActivity st) as (_ & _ & ->).
  exact Hmsg.
Qed.

(** X12: the loop waits once after every turn that does not end the task
    and never after the one that does: the delays of a run that returns
    are its turns, less one when the task was completed; a run that an
    exception leaves has waited after every turn, or after every turn but
    the last. *)
Theorem delays_per_turn seed :
  (escaped (loop seed) = None ->
   count isDelay (trace (loop seed))
   + (if taskComplete (loop seed) then 1 else 0)
   = iterations (loop seed))
  /\ count isDelay (trace (loop seed)) <= iterations (loop seed)
  /\ iterations (loop seed) <= count isDelay (trace (loop seed)) + 1.
Proof.
  destruct (loop_exit seed) as (st & Hord & Hexit & _ & ->).
  destruct Hord as (_ & Hdelay & Hdone & _).
  unfold ended in Hdelay.
  destruct (afterLoop_cases createActivity st Hexit)
    as [[_ ->]|[(Htc & Hesc & _ & _ & ->)|(e & Htc & Hesc & _ & _ & ->)]];
    cbn [trace taskComplete iterations escaped];
    rewrite ?count_app;
    try change (count isDelay
                  [Activity (ErrorContent maxIterationsMessage)]) with 0;
    try change (count isDelay
                  [Rejected (ErrorContent maxIterationsMessage)]) with 0.
  - split; [intros Hnone; rewrite Hnone in Hdelay|];
      destruct (taskComplete st); destruct (escaped st);
      cbn [orb] in Hdelay; lia.
  - rewrite Htc, Hesc in Hdelay. cbn [orb] in Hdelay.
    split; [intros _|]; lia.
  - rewrite Htc, Hesc in Hdelay. cbn [orb] in Hdelay.
    split; [discriminate | lia].
Qed.

(** X13: a run that returns has ended by persisting a terminal activity:
    the last event of its trace is a Response, Error or Elicitation
    activity; a run that an exception leaves has ended on the refused
    write of an Error activity. *)
Theorem run_ends_with_terminal seed :
  (escaped (loop seed) = None
   /\ exists tr c,
        trace (loop seed) = tr ++ [Activity c] /\ isTerminal c = true)
  \/ (exists e tr b,
        escaped (loop seed) = Some e
        /\ taskComplete (loop seed) = false
        /\ trace (loop seed) = tr ++ [Rejected (ErrorContent b)]).
Proof.
  destruct (loop_exit seed) as (st & Hord & Hexit & _ & ->).
  destruct Hord as (_ & _ & Hlast & Hleft & _).
  destruct (afterLoop_cases createActivity st Hexit)
    as [[Hend ->]|[(Htc & Hesc & _ & _ & ->)|(e & Htc & Hesc & _ & _ & ->)]].
  - destruct Hend as [Htrue|[e He]].
    + left. exact (Hlast Htrue).
    + right. destruct (Hleft e He) as (Htc & tr & e0 & Htr).
      exists e, tr. eexists. split; [exact He|]. split; [exact Htc|].
      exact Htr.
  - left. split; [reflexivity|].
    exists (trace st), (ErrorContent maxIterationsMessage). auto.
  - right. exists e, (trace st), maxIterationsMessage. auto.
Qed.


(** X15: every run makes a first turn, and the first thing it does is to
    request a completion for the seeded conversation. *)
Theorem run_starts_with_completion seed :
  1 <= iterations
         (agentLoop UnreachableCaseError StringToNumber JSON_stringify
           getCoordinates getWeather getTime createCompletion createActivity
           seed)
  /\ exists tr,
       trace
         (agentLoop UnreachableCaseError StringToNumber JSON_stringify
           getCoordinates getWeather getTime createCompletion createActivity
           seed)
       = Completion 1 seed :: tr.
Proof.
  destruct (loop_exit seed) as (st & Hord & Hexit & _ & ->).
  destruct Hord as (_ & Hdelay & _ & _ & _ & _ & _ & _ & _ & Hn).
  assert (Hpos : 1 <= iterations st).
  { destruct (running_false st Hexit)
      as [[e He]|[[Hesc Htc]|(_ & _ & Hspent)]];
      unfold ended in Hdelay.
    - rewrite He, orb_true_r in Hdelay. lia.
    - rewrite Htc in Hdelay. cbn [orb] in Hdelay. lia.
    - unfold MAX_ITERATIONS in Hspent. lia. }
  destruct Hn as [tr Htr]; [lia|].
  destruct (afterLoop_cases createActivity st Hexit)
    as [[_ ->]|[(_ & _ & _ & _ & ->)|(e & _ & _ & _ & _ & ->)]];
    cbn [trace iterations]; (split; [exact Hpos|]); rewrite Htr;
    simpl; eauto.
Qed.

(** X16: when the first completion maps to a terminal activity and the
    tracker accepts it, the run is that one turn: the completion request
    and the activity are all it does, and the conversation is left as
    seeded. *)
Theorem terminal_first_turn seed response c :
  text 1 seed = Return response ->
  mapper response = Return c ->
  isTerminal c = true ->
  createActivity [Completion 1 seed] c = Return tt ->
  loop seed = mkState seed true 1 [Completion 1 seed; Activity c] None.
Proof.
  intros Ht Hm Hc Hw. unfold agentLoop. fold (initialState seed).
  change MAX_ITERATIONS with (0 + S 9).
  rewrite (while_continue _ _ _ _ _ _ _ _ _ _ 0 (initialState seed) 9
             eq_refl).
  change (run 0 (initialState seed)) with (initialState seed).
  rewrite turn_unfold.
  rewrite (try_terminal _ _ _ _ _ _ _ _ _ _ (entered (initialState seed))
             response c Ht Hm Hc Hw).
  cbn [entered initialState messages taskComplete iterations trace escaped
       app].
  rewrite while_done by reflexivity. reflexivity.
Qed.

(** X17: when the tool of an action throws, the turn leaves the intent
    record without outcome and adds nothing to the conversation; when the
    tracker accepts the Error activity of what was thrown, the task ends
    with it. *)
Theorem tool_failure_turn st response tool parameter result0 e :
  text (S (iterations st)) (messages st) = Return response ->
  mapper response = Return (ActionContent tool parameter result0) ->
  createActivity
    (trace st ++ [Completion (S (iterations st)) (messages st)])
    (ActionContent tool parameter result0) = Return tt ->
  execute (S (iterations st)) tool parameter = Throw e ->
  createActivity
    (trace st ++ [ Completion (S (iterations st)) (messages st);
                   Activity (ActionContent tool parameter None);
                   ToolCall (S (iterations st)) tool parameter ])
    (agentError e) = Return tt ->
  turn st
  = mkState (messages st) true (S (iterations st))
      (trace st ++ [ Completion (S (iterations st)) (messages st);
                     Activity (ActionContent tool parameter None);
                     ToolCall (S (iterations st)) tool parameter;
                     Activity (agentError e) ])
      (escaped st).
Proof.
  intros Ht Hm Hw He Hw2. rewrite turn_unfold.
  destruct (mapper_action_inv _ _ _ _ _ Hm) as [-> _].
  rewrite (try_tool_throws _ _ _ _ _ _ _ _ _ _ (entered st) response tool
             parameter None e Ht Hm Hw He).
  rewrite catch_unfold.
  cbn [entered messages taskComplete iterations trace escaped].
  rewrite Hw2. now rewrite <- app_assoc.
Qed.
End LoopOrder.

Lemma delays_per_turn_witness :
  count isDelay (trace (sampleLoop askingWeather []))
  + (if taskComplete (sampleLoop askingWeather []) then 1 else 0)
  = iterations (sampleLoop askingWeather []).
Proof.
  apply (proj1
           (delays_per_turn sampleUnreachable jsstring (fun l => l) jsstring
              (fun v => v) sampleCoordinates sampleWeather sampleTime
              askingWeather accepting [])).
  reflexivity.
Defined.

Lemma terminal_first_turn_witness :
  sampleLoop (fun _ _ => Return (Some (lit "RESPONSE: Sunny, 21 degrees.")))
    [mkMessage system (lit "You are a weather bot.")]
  = mkState [mkMessage system (lit "You are a weather bot.")] true 1
      [ Completion 1 [mkMessage system (lit "You are a weather bot.")];
        Activity (ResponseContent (lit "Sunny, 21 degrees.")) ]
      None.
Proof.
  apply (terminal_first_turn sampleUnreachable jsstring (fun l => l) jsstring
           (fun v => v) sampleCoordinates sampleWeather sampleTime
           (fun _ _ => Return (Some (lit "RESPONSE: Sunny, 21 degrees.")))
           accepting
           [mkMessage system (lit "You are a weather bot.")]
           (lit "RESPONSE: Sunny, 21 degrees.")
           (ResponseContent (lit "Sunny, 21 degrees.")));
    reflexivity.
Defined.

(** The same run when the tracker refuses the first write: the refusal is
    caught and the Error of the failure is what the run persists. *)
Lemma refused_terminal_run :
  sampleRun (fun _ _ => Return (Some (lit "RESPONSE: Sunny, 21 degrees.")))
    refusingOnce [mkMessage system (lit "You are a weather bot.")]
  = mkState [mkMessage system (lit "You are a weather bot.")] true 1
      [ Completion 1 [mkMessage system (lit "You are a weather bot.")];
        Rejected (ResponseContent (lit "Sunny, 21 degrees."));
        Activity (ErrorContent (lit "Agent error: tracker down")) ]
      None.
Proof. reflexivity. Qed.

Lemma tool_failure_turn_witness :
  sampleTurn
    (fun _ _ => Return (Some (lit "ACTION: getWeather(north, south)")))
    accepting (initialState [])
  = mkState [] true 1
      [ Completion 1 [];
        Activity (ActionContent GetWeather (Some (lit "north, south")) None);
        ToolCall 1 GetWeather (Some (lit "north, south"));
        Activity (agentError invalidWeatherParameter) ]
      None.
Proof.
  apply (tool_failure_turn sampleUnreachable jsstring (fun l => l) jsstring
           (fun v => v) sampleCoordinates sampleWeather sampleTime
           (fun _ _ => Return (Some (lit "ACTION: getWeather(north, south)")))
           accepting (initialState [])
           (lit "ACTION: getWeather(north, south)")
           GetWeather (Some (lit "north, south")) None
           invalidWeatherParameter);
    reflexivity.
Defined.

(** ** The activity log *)

Section LogProperties.
Variable activities : option jsstring -> Connection.

(** X18: the pagination stops at the first page, whatever it announces,
    when that page gives no cursor (or an empty one), and when it announces
    no next page: the activities fetched are those of the first page. *)
Theorem pagination_stops fuel :
  hasNextPage (activities None) = false
  \/ falsy (endCursor (activities None)) = true ->
  fetchAllActivities activities fuel = Some (nodes (activities None)).
Proof.
  intros H. unfold fetchAllActivities.
  assert (Hrem : fetchRemaining activities fuel (activities None) = Some []).
  { destruct fuel; simpl; destruct H as [-> | ->];
      rewrite ?andb_false_r; reflexivity. }
  rewrite Hrem. simpl. now rewrite app_nil_r.
Qed.

(** X19: whatever the log holds, the messages rebuilt from it are user and
    assistant messages only, and there are no more of them than activities
    fetched. *)
Theorem log_messages_roles fuel ms :
  generateMessagesFromPreviousActivities activities fuel = Some ms ->
  forallb (fun m => match role m with system => false | _ => true end) ms
  = true
  /\ exists fetched,
       fetchAllActivities activities fuel = Some fetched
       /\ List.length ms <= List.length fetched.
Proof.
  unfold generateMessagesFromPreviousActivities.
  destruct (fetchAllActivities activities fuel) as [fetched|];
    [|discriminate].
  simpl. intros H. inversion H; subst ms. split.
  - apply forallb_forall. intros m Hm. apply in_map_iff in Hm as (a & <- & _).
    unfold toMessage. simpl. now destruct (isPrompt a).
  - exists fetched. split; [reflexivity|].
    rewrite length_map, length_rev. apply filter_length_le.
Qed.
End LogProperties.

Lemma pagination_stops_witness :
  fetchAllActivities
    (fun _ => mkConnection [PromptActivity (lit "Hello")] true None) 0
  = Some [PromptActivity (lit "Hello")].
Proof.
  apply (pagination_stops
           (fun _ => mkConnection [PromptActivity (lit "Hello")] true None) 0).
  right. reflexivity.
Defined.

Lemma log_messages_roles_witness :
  forallb (fun m => match role m with system => false | _ => true end)
    [ mkMessage user (lit "Weather in Paris?");
      mkMessage assistant (lit "Sunny") ] = true
  /\ exists fetched,
       fetchAllActivities samplePages 1 = Some fetched
       /\ List.length [ mkMessage user (lit "Weather in Paris?");
                        mkMessage assistant (lit "Sunny") ]
          <= List.length fetched.
Proof.
  apply (log_messages_roles samplePages 1
           [ mkMessage user (lit "Weather in Paris?");
             mkMessage assistant (lit "Sunny") ]).
  reflexivity.
Defined.

(** ** The worker *)

(** X20: the user prompt built from a webhook is empty exactly when the
    session has neither an issue title nor a comment body (absent or
    empty); otherwise it starts with "Issue: " or "Task: ". *)
Theorem generateUserPrompt_empty session :
  (generateUserPrompt session = []
   <-> falsy (issueTitle session) = true
       /\ falsy (commentBody session) = true)
  /\ (generateUserPrompt session <> [] ->
      startsWith (lit "Issue: ") (generateUserPrompt session) = true
      \/ startsWith (lit "Task: ") (generateUserPrompt session) = true).
Proof.
  unfold generateUserPrompt.
  destruct (issueTitle session) as [[|x t]|];
    destruct (commentBody session) as [[|y c]|]; cbn [falsy negb andb];
    (split; [split; [intros H | intros [H1 H2]]| intros H]);
    try discriminate; try congruence; auto.
Qed.

Lemma generateUserPrompt_empty_witness :
  startsWith (lit "Issue: ") (generateUserPrompt sampleSession) = true
  \/ startsWith (lit "Task: ") (generateUserPrompt sampleSession) = true.
Proof.
  apply (generateUserPrompt_empty sampleSession). discriminate.
Defined.

Section WorkerProperties.
Variable UnreachableCaseError : AgentActivityType -> thrown.
Variable number : Type.
Variable StringToNumber : jsstring -> number.
Variable value : Type.
Variable JSON_stringify : value -> jsstring.
Variable getCoordinates : nat -> jsstring -> result value.
Variable getWeather : nat -> number -> number -> result value.
Variable getTime : nat -> number -> number -> result jsstring.
Variable prompt : jsstring.
Variable completions :
  option jsstring -> nat -> list ChatMessage -> result (option jsstring).
Variable tracker : jsstring -> jsstring -> option jsstring -> Connection.
Variable writes : jsstring -> jsstring -> list event -> Content -> result unit.
Variable JSON_parse : jsstring -> result (option (Payload value)).
Variable verify :
  option jsstring -> jsstring -> jsstring -> option value -> result bool.
Variable getOAuthToken : Env -> option value -> result (option jsstring).
Variable handleOAuthAuthorize : Request -> Env -> result HttpResponse.
Variable handleOAuthCallback : Request -> Env -> result HttpResponse.
Variable TypeError : thrown.

Local Abbreviation agent :=
  (handleWebhook UnreachableCaseError StringToNumber JSON_stringify
     getCoordinates getWeather getTime prompt completions tracker writes
     TypeError).
Local Abbreviation handler :=
  (handleWebhookWithEventListener UnreachableCaseError StringToNumber
     JSON_stringify getCoordinates getWeather getTime prompt completions
     tracker writes JSON_parse verify getOAuthToken TypeError).
Local Abbreviation serve :=
  (fetch UnreachableCaseError StringToNumber JSON_stringify getCoordinates
     getWeather getTime prompt completions tracker writes JSON_parse verify
     getOAuthToken handleOAuthAuthorize handleOAuthCallback TypeError).

(** X21: the task of a webhook runs the agent loop with the completion API
    of the key and the tracker of the token and session, on the system
    instruction, the prompt built from the session, and the turns of the
    session's log under the token; it ends as that run ends, returning or
    throwing what left the run; a payload without session makes the task
    fail before any of that. *)
Theorem webhook_task webhook token key fuel :
  (agentSession webhook = None ->
     agent webhook token key fuel = Throw TypeError)
  /\ (forall session log n,
        agentSession webhook = Some session ->
        follows (tracker token (sessionId session))
          (tracker token (sessionId session) None) log n ->
        n <= fuel ->
        agent webhook token key fuel
        = settled
            (Some
               (agentLoop UnreachableCaseError StringToNumber JSON_stringify
                  getCoordinates getWeather getTime (completions key)
                  (writes token (sessionId session))
                  (seededHistory prompt (generateUserPrompt session)
                     (nodes (tracker token (sessionId session) None)
                      ++ log))))).
Proof.
  unfold handleWebhook. split.
  - now intros ->.
  - intros session log n -> Hlog Hfuel. f_equal.
    unfold handleUserPrompt, generateMessagesFromPreviousActivities,
      fetchAllActivities.
    rewrite (fetchRemaining_follows _ _ _ _ Hlog fuel Hfuel).
    cbn [option_map]. f_equal. f_equal.
    rewrite <- filter_rev, turns_of_filtered.
    unfold initialMessages, seededHistory.
    now destruct (generateUserPrompt session).
Qed.

(** X22: a request starts the agent only when it is a POST to /webhook,
    both secrets are configured, the body parses to a payload, the
    signature check does not throw, the event is an agent-session event and
    a token is stored; the request is then answered 200 at once. *)
Theorem agent_started_only_when_verified request env fuel outcome task :
  serve request env fuel = Return outcome ->
  background outcome = Some task ->
  pathname request = lit "/webhook"
  /\ method request = lit "POST"
  /\ falsy (LINEAR_WEBHOOK_SECRET env) = false
  /\ falsy (OPENAI_API_KEY env) = false
  /\ response outcome = respond (lit "Webhook handled") 200
  /\ exists payload ok token,
       JSON_parse (bodyText request) = Return (Some payload)
       /\ verify (LINEAR_WEBHOOK_SECRET env) (bodyText request)
            (signatureOf request) (webhookTimestamp payload) = Return ok
       /\ eventType payload = Some (lit "AgentSessionEvent")
       /\ getOAuthToken env (organizationId payload) = Return (Some token)
       /\ token <> []
       /\ task = agent payload token (OPENAI_API_KEY env) fuel.
Proof.
  unfold fetch. intros Hserve Hback.
  destruct (jsstring_eqb (pathname request) (lit "/"));
    [inversion Hserve; subst; discriminate Hback|].
  destruct (jsstring_eqb (pathname request) (lit "/oauth/authorize")).
  { destruct (handleOAuthAuthorize request env); inversion Hserve; subst.
    discriminate Hback. }
  destruct (jsstring_eqb (pathname request) (lit "/oauth/callback")).
  { destruct (handleOAuthCallback request env); inversion Hserve; subst.
    discriminate Hback. }
  destruct (jsstring_eqb (pathname request) (lit "/webhook")) eqn:Hpath;
    [|inversion Hserve; subst; discriminate Hback].
  destruct (jsstring_eqb (method request) (lit "POST")) eqn:Hmethod;
    [|inversion Hserve; subst; discriminate Hback].
  cbn [andb] in Hserve.
  apply jsstring_eqb_eq in Hpath. apply jsstring_eqb_eq in Hmethod.
  destruct (falsy (LINEAR_WEBHOOK_SECRET env));
    [inversion Hserve; subst; discriminate Hback|].
  destruct (falsy (OPENAI_API_KEY env));
    [inversion Hserve; subst; discriminate Hback|].
  assert (Hout : outcome = handler request env fuel) by congruence.
  clear Hserve. subst outcome.
  unfold handleWebhookWithEventListener in *. cbv zeta in *.
  destruct (JSON_parse (bodyText request)) as [[payload|]|e];
    try discriminate Hback.
  destruct (verify (LINEAR_WEBHOOK_SECRET env) (bodyText request)
              (signatureOf request) (webhookTimestamp payload))
    as [ok|e] eqn:Hv; try discriminate Hback.
  destruct (eventType payload) as [t|] eqn:Ht; try discriminate Hback.
  destruct (jsstring_eqb t (lit "AgentSessionEvent")) eqn:Hevent;
    try discriminate Hback.
  apply jsstring_eqb_eq in Hevent. subst t.
  destruct (getOAuthToken env (organizationId payload)) as [[[|x token]|]|e]
    eqn:Htoken; try discriminate Hback.
  cbn [falsy background response] in *.
  do 5 (split; [auto|]).
  exists payload, ok, (x :: token).
  do 4 (split; [auto|]). split; [discriminate | congruence].
Qed.

(** X23: a request that is not for one of the four routes is answered
    200 "OK" and nothing else is done; so is a request to /webhook that is
    not a POST, before any secret or signature is looked at. *)
Theorem unrouted_request_ok request env fuel :
  pathname request <> lit "/" ->
  pathname request <> lit "/oauth/authorize" ->
  pathname request <> lit "/oauth/callback" ->
  pathname request <> lit "/webhook" \/ method request <> lit "POST" ->
  serve request env fuel = Return (answer (respond (lit "OK") 200)).
Proof.
  assert (Hneq : forall a b, a <> b -> jsstring_eqb a b = false).
  { intros a b Hab. apply not_true_is_false. intros E.
    now apply jsstring_eqb_eq in E. }
  intros H1 H2 H3 H4. unfold fetch.
  rewrite (Hneq _ _ H1), (Hneq _ _ H2), (Hneq _ _ H3).
  destruct H4 as [H4|H4]; rewrite (Hneq _ _ H4), ?andb_false_r; reflexivity.
Qed.

(** X24: a body that does not parse, the body "null", and a signature
    check that throws are all answered 500 "Error handling webhook", and no
    agent is started. *)
Theorem webhook_rejected request env fuel :
  (exists e, JSON_parse (bodyText request) = Throw e)
  \/ JSON_parse (bodyText request) = Return None
  \/ (exists payload e,
        JSON_parse (bodyText request) = Return (Some payload)
        /\ verify (LINEAR_WEBHOOK_SECRET env) (bodyText request)
             (signatureOf request) (webhookTimestamp payload) = Throw e) ->
  handler request env fuel
  = mkOutcome (respond (lit "Error handling webhook") 500) None.
Proof.
  unfold handleWebhookWithEventListener. cbv zeta.
  intros [[e ->]|[->|(payload & e & -> & ->)]]; reflexivity.
Qed.

(** X25: an event of another type, once the signature check has returned
    (whatever boolean it returns), is answered 200 "Webhook handled"
    without looking for a token and without starting an agent. *)
Theorem other_event_acknowledged request env fuel payload ok :
  JSON_parse (bodyText request) = Return (Some payload) ->
  verify (LINEAR_WEBHOOK_SECRET env) (bodyText request)
    (signatureOf request) (webhookTimestamp payload) = Return ok ->
  eventType payload <> Some (lit "AgentSessionEvent") ->
  handler request env fuel
  = mkOutcome (respond (lit "Webhook handled") 200) None.
Proof.
  unfold handleWebhookWithEventListener. cbv zeta. intros -> -> Htype.
  destruct (eventType payload) as [t|]; [|reflexivity].
  destruct (jsstring_eqb t (lit "AgentSessionEvent")) eqn:E; [|reflexivity].
  apply jsstring_eqb_eq in E. subst t. now elim Htype.
Qed.

(** X26: an agent-session event for which no token is stored (none, or an
    empty one) is answered 500 "Linear OAuth token not found", and a token
    store that throws 500 "Error handling webhook"; no agent is started. *)
Theorem missing_token_refused request env fuel payload ok :
  JSON_parse (bodyText request) = Return (Some payload) ->
  verify (LINEAR_WEBHOOK_SECRET env) (bodyText request)
    (signatureOf request) (webhookTimestamp payload) = Return ok ->
  eventType payload = Some (lit "AgentSessionEvent") ->
  (forall token,
      getOAuthToken env (organizationId payload) = Return token ->
      falsy token = true ->
      handler request env fuel
      = mkOutcome (respond (lit "Linear OAuth token not found") 500) None)
  /\ (forall e,
      getOAuthToken env (organizationId payload) = Throw e ->
      handler request env fuel
      = mkOutcome (respond (lit "Error handling webhook") 500) None).
Proof.
  unfold handleWebhookWithEventListener. cbv zeta. intros -> -> ->.
  change (jsstring_eqb (lit "AgentSessionEvent") (lit "AgentSessionEvent"))
    with true. cbv iota.
  split.
  - intros token -> Hf. now rewrite Hf.
  - now intros e ->.
Qed.
End WorkerProperties.

Lemma webhook_task_witness :
  sampleAgent samplePayload (lit "lin_token") (Some (lit "key")) 1
  = settled
      (Some
         (sampleLoop alwaysThinking
            (seededHistory (lit "You are a weather bot.")
               (generateUserPrompt sampleSession)
               (nodes (samplePages None)
                ++ nodes (samplePages (Some (lit "c1"))) ++ [])))).
Proof.
  apply (proj2
           (webhook_task sampleUnreachable jsstring (fun l => l) jsstring
              (fun v => v) sampleCoordinates sampleWeather sampleTime
              (lit "You are a weather bot.") (fun _ => alwaysThinking)
              (fun _ _ => samplePages)
              (fun _ _ => accepting)
              (JsError (lit "Cannot read properties of undefined"))
              samplePayload (lit "lin_token") (Some (lit "key")) 1)
           sampleSession (nodes (samplePages (Some (lit "c1"))) ++ []) 1).
  - reflexivity.
  - apply follows_next; [reflexivity | reflexivity | discriminate |].
    apply follows_last. reflexivity.
  - lia.
Defined.

Lemma agent_started_only_when_verified_witness :
  pathname sampleRequest = lit "/webhook"
  /\ method sampleRequest = lit "POST"
  /\ falsy (LINEAR_WEBHOOK_SECRET sampleEnv) = false
  /\ falsy (OPENAI_API_KEY sampleEnv) = false
  /\ response (sampleHandler sampleRequest sampleEnv 1)
     = respond (lit "Webhook handled") 200
  /\ exists payload ok token,
       sampleParse (bodyText sampleRequest) = Return (Some payload)
       /\ sampleVerify (LINEAR_WEBHOOK_SECRET sampleEnv)
            (bodyText sampleRequest) (signatureOf sampleRequest)
            (webhookTimestamp payload) = Return ok
       /\ eventType payload = Some (lit "AgentSessionEvent")
       /\ sampleToken sampleEnv (organizationId payload)
          = Return (Some token)
       /\ token <> []
       /\ sampleAgent samplePayload (lit "lin_token") (Some (lit "key")) 1
          = sampleAgent payload token (OPENAI_API_KEY sampleEnv) 1.
Proof.
  apply (agent_started_only_when_verified sampleUnreachable jsstring
           (fun l => l) jsstring (fun v => v) sampleCoordinates sampleWeather
           sampleTime (lit "You are a weather bot.") (fun _ => alwaysThinking)
           (fun _ _ => samplePages) (fun _ _ => accepting) sampleParse
           sampleVerify sampleToken
           sampleOAuth sampleOAuth
           (JsError (lit "Cannot read properties of undefined"))
           sampleRequest sampleEnv 1 (sampleHandler sampleRequest sampleEnv 1)
           (sampleAgent samplePayload (lit "lin_token") (Some (lit "key")) 1));
    vm_compute; reflexivity.
Defined.

Lemma unrouted_request_ok_witness :
  sampleFetch (mkRequest (lit "/webhook") (lit "GET") [] None) sampleEnv 0
  = Return (answer (respond (lit "OK") 200)).
Proof.
  apply (unrouted_request_ok sampleUnreachable jsstring (fun l => l) jsstring
           (fun v => v) sampleCoordinates sampleWeather sampleTime
           (lit "You are a weather bot.") (fun _ => alwaysThinking)
           (fun _ _ => samplePages) (fun _ _ => accepting) sampleParse
           sampleVerify sampleToken
           sampleOAuth sampleOAuth
           (JsError (lit "Cannot read properties of undefined"))
           (mkRequest (lit "/webhook") (lit "GET") [] None) sampleEnv 0);
    try discriminate.
  right. discriminate.
Defined.

Lemma webhook_rejected_witness :
  sampleHandler
    (mkRequest (lit "/webhook") (lit "POST") (lit "{}") (Some (lit "forged")))
    sampleEnv 1
  = mkOutcome (respond (lit "Error handling webhook") 500) None.
Proof.
  apply (webhook_rejected sampleUnreachable jsstring (fun l => l) jsstring
           (fun v => v) sampleCoordinates sampleWeather sampleTime
           (lit "You are a weather bot.") (fun _ => alwaysThinking)
           (fun _ _ => samplePages) (fun _ _ => accepting) sampleParse
           sampleVerify sampleToken
           (JsError (lit "Cannot read properties of undefined"))
           (mkRequest (lit "/webhook") (lit "POST") (lit "{}")
              (Some (lit "forged")))
           sampleEnv 1).
  right. right.
  exists samplePayload, (JsError (lit "Invalid webhook signature")).
  split; reflexivity.
Defined.

Lemma other_event_acknowledged_witness :
  handleWebhookWithEventListener sampleUnreachable (fun l => l) (fun v => v)
    sampleCoordinates sampleWeather sampleTime (lit "You are a weather bot.")
    (fun _ => alwaysThinking) (fun _ _ => samplePages)
    (fun _ _ => accepting)
    (fun _ => Return (Some (mkPayload (Some (lit "Issue")) None None None)))
    (fun _ _ _ _ => Return false) sampleToken
    (JsError (lit "Cannot read properties of undefined"))
    (mkRequest (lit "/webhook") (lit "POST") (lit "{}") None) sampleEnv 1
  = mkOutcome (respond (lit "Webhook handled") 200) None.
Proof.
  apply (other_event_acknowledged sampleUnreachable jsstring (fun l => l)
           jsstring (fun v => v) sampleCoordinates sampleWeather sampleTime
           (lit "You are a weather bot.") (fun _ => alwaysThinking)
           (fun _ _ => samplePages)
           (fun _ _ => accepting)
           (fun _ => Return (Some (mkPayload (Some (lit "Issue")) None None
                                     None)))
           (fun _ _ _ _ => Return false) sampleToken
           (JsError (lit "Cannot read properties of undefined"))
           (mkRequest (lit "/webhook") (lit "POST") (lit "{}") None)
           sampleEnv 1 (mkPayload (Some (lit "Issue")) None None None) false);
    try reflexivity.
  discriminate.
Defined.

Lemma missing_token_refused_witness :
  handleWebhookWithEventListener sampleUnreachable (fun l => l) (fun v => v)
    sampleCoordinates sampleWeather sampleTime (lit "You are a weather bot.")
    (fun _ => alwaysThinking) (fun _ _ => samplePages) (fun _ _ => accepting) sampleParse
    sampleVerify (fun _ _ => Return (Some [])) 
    (JsError (lit "Cannot read properties of undefined"))
    (mkRequest (lit "/webhook") (lit "POST") (lit "{}") (Some (lit "good")))
    sampleEnv 1
  = mkOutcome (respond (lit "Linear OAuth token not found") 500) None.
Proof.
  apply (proj1
           (missing_token_refused sampleUnreachable jsstring (fun l => l)
              jsstring (fun v => v) sampleCoordinates sampleWeather
              sampleTime (lit "You are a weather bot.")
              (fun _ => alwaysThinking) (fun _ _ => samplePages) (fun _ _ => accepting) sampleParse
              sampleVerify (fun _ _ => Return (Some []))
              (JsError (lit "Cannot read properties of undefined"))
              (mkRequest (lit "/webhook") (lit "POST") (lit "{}")
                 (Some (lit "good")))
              sampleEnv 1 samplePayload true eq_refl eq_refl eq_refl)
           (Some []));
    reflexivity.
Defined.
